(** * Smart Home Controller: device model and registry of [script.js]

    A shallow embedding of the classes [Device], [SmartDevice] and
    [DeviceController] of [script.js], followed by the properties of the
    specification that concern them.

    Conventions of the embedding.
    - A method that mutates [this] becomes a function returning the new
      object next to the method's result.
    - What the JavaScript runtime supplies ([Date.now()], [Math.random()],
      [toLocaleTimeString()]) is an explicit argument of the call that reads
      it; [parseFloat] and the number-to-string conversion of template
      literals are fields of the class [Runtime].
    - The DOM element [#activityLog] is the list of its child nodes. *)

From Stdlib Require Import QArith Qcanon Ascii String.
From stdpp Require Import base numbers list strings pretty.
From Equations Require Import Equations.

Open Scope string_scope.
Open Scope list_scope.

(** ** JavaScript numbers *)

(** A number is [NaN], an infinity or a finite value.  Finite values are
    kept as exact rationals (every double is one); the two zeros are
    identified, as [===] identifies them.  Numbers are only compared,
    stored, and added once to build an id; that sum is exact here, where
    the double is rounded, and rounding can only send more pairs of
    readings to one id. *)
Inductive number : Type :=
  | NaN
  | NegInfinity
  | Finite (q : Qc)
  | Infinity.

Global Instance number_eq_dec : EqDecision number.
Proof. solve_decision. Defined.

Definition ofZ (z : Z) : number := Finite (Qc_of_Z z).

Module Number.

(** [a < b] *)
Definition lt (a b : number) : bool :=
  match a, b with
  | NaN, _ | _, NaN => false
  | _, NegInfinity => false
  | NegInfinity, _ => true
  | Infinity, _ => false
  | Finite _, Infinity => true
  | Finite x, Finite y => bool_decide (x < y)%Qc
  end.

(** [a <= b] *)
Definition le (a b : number) : bool :=
  match a, b with
  | NaN, _ | _, NaN => false
  | NegInfinity, _ => true
  | _, Infinity => true
  | _, NegInfinity => false
  | Infinity, _ => false
  | Finite x, Finite y => bool_decide (x ≤ y)%Qc
  end.

(** [a === b] on numbers: [NaN] is different from everything. *)
Definition strict_eq (a b : number) : bool :=
  match a, b with
  | NaN, _ | _, NaN => false
  | _, _ => bool_decide (a = b)
  end.

(** [a + b] *)
Definition add (a b : number) : number :=
  match a, b with
  | NaN, _ | _, NaN => NaN
  | Infinity, NegInfinity | NegInfinity, Infinity => NaN
  | Infinity, _ | _, Infinity => Infinity
  | NegInfinity, _ | _, NegInfinity => NegInfinity
  | Finite x, Finite y => Finite (x + y)
  end.

(** [Math.min(a, b)] *)
Definition Math_min (a b : number) : number :=
  match a, b with
  | NaN, _ | _, NaN => NaN
  | _, _ => if lt b a then b else a
  end.

(** [Math.max(a, b)] *)
Definition Math_max (a b : number) : number :=
  match a, b with
  | NaN, _ | _, NaN => NaN
  | _, _ => if lt a b then b else a
  end.

End Number.

(** What the host environment provides to the script. *)
Class Runtime := {
  (** the global [parseFloat] *)
  parseFloat : string → number;
  (** the conversion of a number spliced into a template literal *)
  toString : number → string;
}.

(** ** Results of the device operations: [{ success, message }] *)
Record Outcome := { success : bool; message : string }.

(** The outcome of an operation refused because the device is offline. *)
Definition offlineOutcome : Outcome :=
  {| success := false; message := "Device is offline" |}.

(** ** The object literal [{ name, value, min, max }] *)
Module Param.
Record t := mk { name : string; value : number; min : number; max : number }.

Definition set_value (v : number) (p : t) : t :=
  {| name := name p; value := v; min := min p; max := max p |}.
End Param.

(** ** [class Device] *)
Module Device.

Record t := mk {
  name : string;
  type : string;
  powerState : bool;
  connectivity : string;
  id : number;
}.

(** [getStatus()] returns [{ name, type, power, connectivity }]. *)
Record Status := {
  status_name : string;
  status_type : string;
  status_power : string;
  status_connectivity : string;
}.

(** [constructor(name, type)]; [now] and [rnd] are the values that
    [Date.now()] and [Math.random()] return during the call. *)
Definition new (now rnd : number) (name type : string) : t :=
  {| name := name;
     type := type;
     powerState := false;
     connectivity := "online";
     id := Number.add now rnd |}.

Definition togglePower (this : t) : t * Outcome :=
  if decide (connectivity this = "offline") then
    (this, {| success := false; message := "Device is offline" |})
  else
    let this' :=
      {| name := name this;
         type := type this;
         powerState := negb (powerState this);
         connectivity := connectivity this;
         id := id this |} in
    (this',
     {| success := true;
        message :=
          "Device turned " +:+ (if powerState this' then "ON" else "OFF") |}).

Definition getStatus (this : t) : Status :=
  {| status_name := name this;
     status_type := type this;
     status_power := if powerState this then "ON" else "OFF";
     status_connectivity := connectivity this |}.

Definition setConnectivity (status : string) (this : t) : t :=
  {| name := name this;
     type := type this;
     powerState := powerState this;
     connectivity := status;
     id := id this |}.

End Device.

(** ** [class SmartDevice extends Device] *)
Module SmartDevice.

(** The inherited part is the field [base]. *)
Record t := mk {
  base : Device.t;
  hasAdjustable : bool;
  adjustableParam : Param.t;
}.

Definition name (this : t) : string := Device.name (base this).
Definition type (this : t) : string := Device.type (base this).
Definition powerState (this : t) : bool := Device.powerState (base this).
Definition connectivity (this : t) : string := Device.connectivity (base this).
Definition id (this : t) : number := Device.id (base this).

(** The fallback of the constructor, [adjustableParam || { ... }]. *)
Definition fallbackParam : Param.t :=
  Param.mk "Level" (ofZ 50) (ofZ 0) (ofZ 100).

(** [constructor(name, type, hasAdjustable = false, adjustableParam = null)]:
    [None] stands for an argument that is omitted (or [null] for the
    last one). *)
Definition new (now rnd : number) (name type : string)
    (hasAdjustable : option bool) (adjustableParam : option Param.t) : t :=
  {| base := Device.new now rnd name type;
     hasAdjustable := default false hasAdjustable;
     adjustableParam := default fallbackParam adjustableParam |}.

Definition with_base (b : Device.t) (this : t) : t :=
  {| base := b;
     hasAdjustable := hasAdjustable this;
     adjustableParam := adjustableParam this |}.

Definition updateAdjustable `{Runtime} (value : number) (this : t)
    : t * Outcome :=
  if decide (connectivity this = "offline") then
    (this, {| success := false; message := "Device is offline" |})
  else
    let clampedValue :=
      Number.Math_max
        (Param.min (adjustableParam this))
        (Number.Math_min (Param.max (adjustableParam this)) value) in
    let this' :=
      {| base := base this;
         hasAdjustable := hasAdjustable this;
         adjustableParam :=
           Param.set_value clampedValue (adjustableParam this) |} in
    (this',
     {| success := true;
        message :=
          Param.name (adjustableParam this') +:+ " set to "
            +:+ toString clampedValue |}).

(** The override only forwards to [super.togglePower()]. *)
Definition togglePower (this : t) : t * Outcome :=
  let result := Device.togglePower (base this) in
  (with_base (fst result) this, snd result).

(** Inherited unchanged. *)
Definition getStatus (this : t) : Device.Status :=
  Device.getStatus (base this).

Definition setConnectivity (status : string) (this : t) : t :=
  with_base (Device.setConnectivity status (base this)) this.

End SmartDevice.

(** ** The DOM element [#activityLog] *)
Module Dom.

(** A child node of the container: an element, or any other kind of node
    (text, comment).  [children] counts elements only, [firstChild] and
    [lastChild] see every node. *)
Inductive node : Type :=
  | Element (className innerHTML : string)
  | OtherNode (data : string).

Definition is_element (n : node) : bool :=
  match n with Element _ _ => true | OtherNode _ => false end.

(** [container.children] *)
Definition children (childNodes : list node) : list node :=
  filter (λ n, is_element n = true) childNodes.

(** [container.insertBefore(n, container.firstChild)]; on an empty
    container [firstChild] is [null] and the node is appended. *)
Definition insertBefore_first (n : node) (childNodes : list node)
    : list node :=
  n :: childNodes.

(** [container.removeChild(container.lastChild)] *)
Definition removeChild_last (childNodes : list node) : list node :=
  removelast childNodes.

End Dom.

(** ** [class DeviceController], with the log container it writes to *)
Module DeviceController.

Record t := mk {
  devices : list SmartDevice.t;
  (** the child nodes of [document.getElementById("activityLog")] *)
  activityLog : list Dom.node;
}.

(** [constructor()]: no device; the container is whatever the page has. *)
Definition new (activityLog : list Dom.node) : t :=
  {| devices := []; activityLog := activityLog |}.

(** The cap of the log. *)
Definition logCap : nat := 50.

(** [while (logContainer.children.length > 50)
       logContainer.removeChild(logContainer.lastChild);] *)
Equations? trimLog (childNodes : list Dom.node) : list Dom.node
    by wf (length childNodes) lt :=
  trimLog childNodes with decide (logCap < length (Dom.children childNodes)) => {
    | left _ => trimLog (Dom.removeChild_last childNodes);
    | right _ => childNodes }.
Proof.
  destruct childNodes as [|n childNodes] using rev_ind.
  - (* an empty container has no children *)
    unfold logCap in *. simpl in *. lia.
  - unfold Dom.removeChild_last.
    rewrite removelast_last, length_app. simpl. lia.
Qed.

Definition dq : string := String "034"%char "".
Definition nl : string := String "010"%char "".

(** The template literal assigned to [logEntry.innerHTML]. *)
Definition entryHTML (timestamp message : string) : string :=
  nl +:+ "            <span class=" +:+ dq +:+ "timestamp" +:+ dq +:+ ">["
     +:+ timestamp +:+ "]</span> " +:+ message +:+ nl +:+ "        ".

(** The [div] that [logActivity] creates, with its class and content. *)
Definition logEntry (timestamp message : string) : Dom.node :=
  Dom.Element "log-entry" (entryHTML timestamp message).

(** What [logActivity] does to the container: the entry goes in front,
    then the loop runs. *)
Definition logNodes (timestamp message : string) (childNodes : list Dom.node)
    : list Dom.node :=
  trimLog (Dom.insertBefore_first (logEntry timestamp message) childNodes).

(** [logActivity(message)]; [timestamp] is what
    [new Date().toLocaleTimeString()] returns during the call. *)
Definition logActivity (timestamp message : string) (this : t) : t :=
  {| devices := devices this;
     activityLog := logNodes timestamp message (activityLog this) |}.

(** Calls of [logActivity] in a row, each with the time read during it
    and its message. *)
Definition logAll (calls : list (string * string)) (this : t) : t :=
  foldl (λ this call, logActivity call.1 call.2 this) this calls.

(** The array literal that [addDevice] tests [type] against. *)
Definition adjustableTypes : list string :=
  ["light"; "fan"; "ac"; "thermostat"].

(** [let adjustableParam = null; switch (type) { ... }] of [addDevice]. *)
Definition paramFor (type : string) : option Param.t :=
  if decide (type = "light") then
    Some (Param.mk "Brightness" (ofZ 50) (ofZ 0) (ofZ 100))
  else if decide (type = "fan") then
    Some (Param.mk "Speed" (ofZ 3) (ofZ 0) (ofZ 5))
  else if decide (type = "ac") then
    Some (Param.mk "Temperature" (ofZ 24) (ofZ 16) (ofZ 30))
  else if decide (type = "thermostat") then
    Some (Param.mk "Temperature" (ofZ 22) (ofZ 16) (ofZ 30))
  else
    Some (Param.mk "Level" (ofZ 50) (ofZ 0) (ofZ 100)).

(** [addDevice(name, type, connectivity)]; returns the controller after
    the call and the device. *)
Definition addDevice (now rnd : number) (timestamp : string)
    (name type connectivity : string) (this : t) : t * SmartDevice.t :=
  let hasAdjustable := bool_decide (type ∈ adjustableTypes) in
  let adjustableParam := paramFor type in
  let device :=
    SmartDevice.new now rnd name type (Some hasAdjustable) adjustableParam in
  let device := SmartDevice.setConnectivity connectivity device in
  let this := {| devices := devices this ++ [device];
                 activityLog := activityLog this |} in
  let this :=
    logActivity timestamp
      ("✅ Added new " +:+ type +:+ ": " +:+ dq +:+ name +:+ dq
         +:+ " (" +:+ connectivity +:+ ")") this in
  (this, device).

(** An id argument arrives as a string or as a number. *)
Inductive deviceId : Type :=
  | IdString (s : string)
  | IdNumber (n : number).

(** [typeof deviceId === "string" ? parseFloat(deviceId) : deviceId] *)
Definition parseId `{Runtime} (i : deviceId) : number :=
  match i with
  | IdString s => parseFloat s
  | IdNumber n => n
  end.

(** The callback [(d) => d.id === parsedId]. *)
Definition hasId (parsedId : number) (d : SmartDevice.t) : Prop :=
  Number.strict_eq (SmartDevice.id d) parsedId = true.

Global Instance hasId_dec parsedId d : Decision (hasId parsedId d).
Proof. unfold hasId. apply _. Defined.

(** [removeDevice(deviceId)]: [list_find] gives the index that
    [findIndex] returns together with [this.devices[index]]; [None] is
    the index [-1].  The message sent to [console.error] is not kept. *)
Definition removeDevice `{Runtime} (timestamp : string) (i : deviceId)
    (this : t) : t * bool :=
  let parsedId := parseId i in
  match list_find (hasId parsedId) (devices this) with
  | Some (index, device) =>
      let this := {| devices := delete index (devices this);
                     activityLog := activityLog this |} in
      let this :=
        logActivity timestamp
          ("🗑️ Removed device: " +:+ dq +:+ SmartDevice.name device +:+ dq)
          this in
      (this, true)
  | None => (this, false)
  end.

(** [getDevice(deviceId)]; [None] is [undefined]. *)
Definition getDevice `{Runtime} (i : deviceId) (this : t)
    : option SmartDevice.t :=
  let parsedId := parseId i in
  snd <$> list_find (hasId parsedId) (devices this).

Definition getAllDevices (this : t) : list SmartDevice.t := devices this.

End DeviceController.

(** ** The operations a device offers *)
Inductive operation : Type :=
  | TogglePower
  | UpdateAdjustable (value : number)
  | GetStatus
  | SetConnectivity (status : string).

Definition isSetConnectivity (op : operation) : bool :=
  match op with SetConnectivity _ => true | _ => false end.

(** The device after the call ([getStatus] only reads). *)
Definition perform `{Runtime} (op : operation) (d : SmartDevice.t)
    : SmartDevice.t :=
  match op with
  | TogglePower => fst (SmartDevice.togglePower d)
  | UpdateAdjustable v => fst (SmartDevice.updateAdjustable v d)
  | GetStatus => d
  | SetConnectivity s => SmartDevice.setConnectivity s d
  end.

(** The devices of a registry: created by [addDevice], then operated on. *)
Inductive RegistryDevice `{Runtime} : SmartDevice.t → Prop :=
  | created now rnd timestamp name type connectivity this :
      RegistryDevice
        (snd (DeviceController.addDevice now rnd timestamp name type
                connectivity this))
  | operated op d :
      RegistryDevice d → RegistryDevice (perform op d).

(** Readings of [Date.now()] and [Math.random()] used in the examples: a
    millisecond count and a value of [[0, 1)]. *)
Definition sampleNow : number := ofZ 1700000000000.
Definition sampleRandom : number := Finite (Q2Qc (1 # 2)).

(** The clamp of the specification: values below [lo] become [lo], values
    above [hi] become [hi], the others are kept. *)
Definition clamp (v lo hi : number) : number :=
  if Number.lt v lo then lo
  else if Number.lt hi v then hi
  else v.

(** [lo <= x <= hi] *)
Definition inRange (lo hi x : number) : bool :=
  Number.le lo x && Number.le x hi.

(** ** A runtime to run the model on integers

    [parseFloat] is implemented for decimal integer literals (an optional
    minus sign and digits; anything else is [NaN] here) and [toString] for
    [NaN], the infinities and integers, where it gives what ECMAScript gives
    below 10^21.  The general theorems hold for every [Runtime]; this one
    only serves to evaluate the model on concrete calls. *)
Module IntRuntime.

Definition digit (c : ascii) : option Z :=
  let n := Z.of_nat (nat_of_ascii c) in
  if decide (48 ≤ n ≤ 57)%Z then Some (n - 48)%Z else None.

Fixpoint digits (acc : Z) (s : string) : option Z :=
  match s with
  | EmptyString => Some acc
  | String c s' =>
      match digit c with
      | Some d => digits (10 * acc + d)%Z s'
      | None => None
      end
  end.

Definition parse (s : string) : number :=
  match s with
  | EmptyString => NaN
  | String "-" EmptyString => NaN
  | String "-" s' => from_option (λ z, ofZ (- z)) NaN (digits 0 s')
  | _ => from_option ofZ NaN (digits 0 s)
  end.

Definition show (n : number) : string :=
  match n with
  | NaN => "NaN"
  | Infinity => "Infinity"
  | NegInfinity => "-Infinity"
  | Finite q =>
      match Qden q with
      | 1%positive => pretty (Qnum q)
      | d => pretty (Qnum q) +:+ "/" +:+ pretty (Zpos d)
      end
  end.

Definition runtime : Runtime :=
  {| parseFloat := parse; toString := show |}.

End IntRuntime.

(** ** Scenarios

    The page as its [DOMContentLoaded] handler and a visitor drive it,
    with the readings written out. *)
Module Scenario.

Import DeviceController.

(** A page whose log container holds only white space. *)
Definition emptyPage : DeviceController.t :=
  DeviceController.new [Dom.OtherNode " "].

(** [addDevice("Living Room Light", "light", "online")] *)
Definition withLight : DeviceController.t * SmartDevice.t :=
  addDevice sampleNow sampleRandom "10:00:00" "Living Room Light" "light"
    "online" emptyPage.

Definition light : SmartDevice.t := snd withLight.

(** [addDevice("Bedroom Fan", "fan", "online")] next, in the same
    millisecond and with the same value of [Math.random()]. *)
Definition withFan : DeviceController.t * SmartDevice.t :=
  addDevice sampleNow sampleRandom "10:00:00" "Bedroom Fan" "fan" "online"
    (fst withLight).

Definition fan : SmartDevice.t := snd withFan.

(** [addDevice("Main Thermostat", "thermostat", "offline")] *)
Definition thermostat : SmartDevice.t :=
  snd (addDevice sampleNow sampleRandom "10:00:00" "Main Thermostat"
         "thermostat" "offline" emptyPage).

(** [addDevice("Front Door Camera", "security", "online")] *)
Definition camera : SmartDevice.t :=
  snd (addDevice sampleNow sampleRandom "10:00:00" "Front Door Camera"
         "security" "online" emptyPage).

(** [removeDevice(light.id)] on the registry that holds the light and
    the fan. *)
Definition afterRemoval : DeviceController.t * bool :=
  @removeDevice IntRuntime.runtime "10:00:01"
    (IdNumber (SmartDevice.id light)) (fst withFan).

(** The light is added and removed, then the fan is added, all in the
    same millisecond and with the same value of [Math.random()]. *)
Definition lightRemoved : DeviceController.t * bool :=
  @removeDevice IntRuntime.runtime "10:00:00"
    (IdNumber (SmartDevice.id light)) (fst withLight).

Definition fanAfterLight : SmartDevice.t :=
  snd (addDevice sampleNow sampleRandom "10:00:00" "Bedroom Fan" "fan"
         "online" (fst lightRemoved)).

(** Sixty calls of [logActivity]: "event 0" at "t0" up to "event 59" at
    "t59". *)
Definition sixtyCalls : list (string * string) :=
  (λ n : nat, ("t" +:+ pretty n, "event " +:+ pretty n)) <$> seq 0 60.

End Scenario.

(** ** Sequences of operations on one device *)

(** The device after the operations of [ops], first to last. *)
Definition performAll `{Runtime} (ops : list operation) (d : SmartDevice.t)
    : SmartDevice.t :=
  foldl (λ d op, perform op d) d ops.

(** No operation of [ops] is [setConnectivity]. *)
Definition keepsConnectivity (ops : list operation) : bool :=
  forallb (λ op, negb (isSetConnectivity op)) ops.

(** Identity, flags and bounds of a device: everything but [powerState],
    [connectivity] and the parameter's value. *)
Definition profileOf (d : SmartDevice.t)
    : number * string * string * bool * (string * number * number) :=
  (SmartDevice.id d, SmartDevice.name d, SmartDevice.type d,
   SmartDevice.hasAdjustable d,
   (Param.name (SmartDevice.adjustableParam d),
    Param.min (SmartDevice.adjustableParam d),
    Param.max (SmartDevice.adjustableParam d))).

(** The parameter's value is between its bounds, or is [NaN]. *)
Definition valueWithinOrNaN (d : SmartDevice.t) : bool :=
  let p := SmartDevice.adjustableParam d in
  bool_decide (Param.value p = NaN)
  || inRange (Param.min p) (Param.max p) (Param.value p).

(** ** The page around the controller

    The handlers of [script.js] work on the controller and call the browser:
    [alert], [confirm], [console.error], [renderDevices()], writes to the
    text of an element, and the form.  A page is the controller together
    with the list of these calls, oldest first.  [renderDevices()] itself,
    which builds the HTML of [#devicesGrid] from the collection, is kept as
    the call and the collection it was made on. *)

(** What the handlers use of the browser besides [Runtime]. *)
Class Browser := {
  (** the global [parseInt], on a string *)
  parseInt : string → number;
  (** [String.prototype.trim] *)
  trim : string → string;
}.

Module Page.

Import DeviceController.

Inductive effect : Type :=
  | PreventDefault
  | Alert (message : string)
  | Confirm (message : string) (answer : bool)
  (** [console.error(label, deviceId)], and [parsedId] when given *)
  | ConsoleError (label : string) (i : deviceId) (parsedId : option number)
  (** [renderDevices()], called on this collection *)
  | RenderDevices (shown : list SmartDevice.t)
  (** [document.getElementById(elementId).textContent = text] *)
  | SetTextContent (elementId text : string)
  (** [e.target.reset()] *)
  | FormReset
  (** [document.getElementById(elementId).focus()] *)
  | Focus (elementId : string).

Record t := mk {
  controller : DeviceController.t;
  effects : list effect;
}.

(** A handler returns, or stops at a [TypeError]; either way the page is
    what the calls made so far left. *)
Inductive completion : Type :=
  | Returned (p : t)
  | Threw (p : t).

Definition pageOf (c : completion) : t :=
  match c with Returned p | Threw p => p end.

Definition also (new : list effect) (p : t) : t :=
  {| controller := controller p; effects := effects p ++ new |}.

(** [controller.getDevice(deviceId)] with the place of the device in the
    collection: the handlers change the object they get, which is the one
    the collection holds. *)
Definition findDevice `{Runtime} (i : deviceId) (c : DeviceController.t)
    : option (nat * SmartDevice.t) :=
  list_find (hasId (parseId i)) (devices c).

(** The collection after the object at [index] was changed in place. *)
Definition withDevice (index : nat) (device : SmartDevice.t)
    (c : DeviceController.t) : DeviceController.t :=
  {| devices := <[index := device]> (devices c);
     activityLog := activityLog c |}.

(** [function toggleDevice(deviceId)] *)
Definition toggleDevice `{Runtime} (timestamp : string) (i : deviceId)
    (p : t) : t :=
  match findDevice i (controller p) with
  | None => also [ConsoleError "Device not found:" i None] p
  | Some (index, device) =>
      let result := SmartDevice.togglePower device in
      let device := fst result in
      let c := withDevice index device (controller p) in
      if success (snd result) then
        let c :=
          logActivity timestamp
            ((if SmartDevice.powerState device then "🟢" else "🔴")
               +:+ " " +:+ SmartDevice.name device +:+ ": "
               +:+ message (snd result)) c in
        {| controller := c;
           effects := effects p ++ [RenderDevices (devices c)] |}
      else
        let c :=
          logActivity timestamp
            ("❌ " +:+ SmartDevice.name device +:+ ": "
               +:+ message (snd result)) c in
        {| controller := c;
           effects := effects p ++ [Alert (message (snd result))] |}
  end.

(** The unit put after the value shown: degrees when the parameter is
    named "Temperature", nothing otherwise. *)
Definition unitOf (device : SmartDevice.t) : string :=
  if decide (Param.name (SmartDevice.adjustableParam device) = "Temperature")
  then "°C" else "".

(** [deviceId] spliced into a template literal. *)
Definition spliceId `{Runtime} (i : deviceId) : string :=
  match i with
  | IdString s => s
  | IdNumber n => toString n
  end.

(** [function updateAdjustable(deviceId, value)]; [spanPresent] tells
    whether [document.getElementById] finds the element it is asked for
    (the assignment to [textContent] of [null] throws). *)
Definition updateAdjustable `{Runtime} `{Browser} (timestamp : string)
    (spanPresent : bool) (i : deviceId) (value : string) (p : t)
    : completion :=
  match findDevice i (controller p) with
  | None => Returned (also [ConsoleError "Device not found:" i None] p)
  | Some (index, device) =>
      let result := SmartDevice.updateAdjustable (parseInt value) device in
      let device := fst result in
      let c := withDevice index device (controller p) in
      if success (snd result) then
        let unit := unitOf device in
        if spanPresent then
          let shown :=
            SetTextContent ("value-" +:+ spliceId i) (value +:+ unit) in
          let c :=
            logActivity timestamp
              ("⚙️ " +:+ SmartDevice.name device +:+ ": "
                 +:+ message (snd result)) c in
          Returned {| controller := c; effects := effects p ++ [shown] |}
        else
          Threw {| controller := c; effects := effects p |}
      else
        Returned {| controller := c;
                    effects := effects p ++ [Alert (message (snd result))] |}
  end.

(** [function updateSliderDisplay(deviceId, value)] *)
Definition updateSliderDisplay `{Runtime} (spanPresent : bool)
    (i : deviceId) (value : string) (p : t) : completion :=
  match findDevice i (controller p) with
  | None => Returned p
  | Some (index, device) =>
      let unit := unitOf device in
      if spanPresent then
        Returned
          (also [SetTextContent ("value-" +:+ spliceId i) (value +:+ unit)] p)
      else Threw p
  end.

(** [function deleteDevice(deviceId)]; [answer] is what [confirm]
    returns. *)
Definition deleteDevice `{Runtime} (timestamp : string) (answer : bool)
    (i : deviceId) (p : t) : t :=
  match getDevice i (controller p) with
  | None =>
      also [ConsoleError "Device not found:" i None;
            Alert "Device not found!"] p
  | Some device =>
      let question :=
        Confirm ("Are you sure you want to delete " +:+ dq
                   +:+ SmartDevice.name device +:+ dq +:+ "?") answer in
      if answer then
        let removed := removeDevice timestamp i (controller p) in
        if snd removed then
          {| controller := fst removed;
             effects :=
               effects p
                 ++ [question; RenderDevices (devices (fst removed))] |}
        else
          {| controller := fst removed;
             effects :=
               effects p
                 ++ [question;
                     ConsoleError "Device not found:" i (Some (parseId i));
                     Alert "Failed to delete device. Please try again."] |}
      else also [question] p
  end.

(** The listener of the form's [submit] event; [deviceName], [deviceType]
    and [connectivity] are the values of the three fields. *)
Definition submit `{Browser} (now rnd : number) (timestamp : string)
    (deviceName deviceType connectivity : string) (p : t) : t :=
  let name := trim deviceName in
  if decide (name = "") then
    also [PreventDefault; Alert "Please enter a device name"] p
  else
    let c :=
      fst (addDevice now rnd timestamp name deviceType connectivity
             (controller p)) in
    {| controller := c;
       effects :=
         effects p
           ++ [PreventDefault; RenderDevices (devices c); FormReset;
               Focus "deviceName"] |}.

(** The readings of one [addDevice] call: [Date.now()], [Math.random()]
    and the time string. *)
Record readings := {
  now : number;
  random : number;
  timeString : string;
}.

(** The listener of [DOMContentLoaded]. *)
Definition domContentLoaded (r1 r2 r3 r4 : readings) (timestamp : string)
    (p : t) : t :=
  let add r name type connectivity c :=
    fst (addDevice (now r) (random r) (timeString r) name type connectivity
           c) in
  let c := add r1 "Living Room Light" "light" "online" (controller p) in
  let c := add r2 "Bedroom Fan" "fan" "online" c in
  let c := add r3 "Main AC" "ac" "online" c in
  let c := add r4 "Main Thermostat" "thermostat" "offline" c in
  let shown := RenderDevices (devices c) in
  let c := logActivity timestamp "🚀 System initialized successfully" c in
  {| controller := c; effects := effects p ++ [shown] |}.

(** What a visitor, or a script, can make the page do. *)
Inductive action : Type :=
  | Submit (now rnd : number) (timestamp : string)
      (deviceName deviceType connectivity : string)
  | ToggleDevice (timestamp : string) (i : deviceId)
  | UpdateAdjustable (timestamp : string) (spanPresent : bool)
      (i : deviceId) (value : string)
  | UpdateSliderDisplay (spanPresent : bool) (i : deviceId) (value : string)
  | DeleteDevice (timestamp : string) (answer : bool) (i : deviceId).

Definition isSubmit (a : action) : bool :=
  match a with Submit _ _ _ _ _ _ => true | _ => false end.

(** The page after the handler, whether it returned or threw. *)
Definition run `{Runtime} `{Browser} (a : action) (p : t) : t :=
  match a with
  | Submit now rnd timestamp deviceName deviceType connectivity =>
      submit now rnd timestamp deviceName deviceType connectivity p
  | ToggleDevice timestamp i => toggleDevice timestamp i p
  | UpdateAdjustable timestamp spanPresent i value =>
      pageOf (updateAdjustable timestamp spanPresent i value p)
  | UpdateSliderDisplay spanPresent i value =>
      pageOf (updateSliderDisplay spanPresent i value p)
  | DeleteDevice timestamp answer i => deleteDevice timestamp answer i p
  end.

Definition runAll `{Runtime} `{Browser} (actions : list action) (p : t)
    : t :=
  foldl (λ p a, run a p) p actions.

End Page.

(** No action of [actions] is a submission of the form. *)
Definition withoutSubmit (actions : list Page.action) : bool :=
  forallb (λ a, negb (Page.isSubmit a)) actions.

(** ** A browser to run the handlers on plain text

    [parseInt] reads decimal integer literals as [IntRuntime.parse] does,
    and [trim] removes the space characters at both ends; on such text
    both give what the browser gives.  The theorems on the handlers hold
    for every [Browser]. *)
Module PlainBrowser.

Fixpoint dropSpaces (s : string) : string :=
  match s with
  | String " " s' => dropSpaces s'
  | _ => s
  end.

Definition trimSpaces (s : string) : string :=
  String.rev (dropSpaces (String.rev (dropSpaces s))).

Definition browser : Browser :=
  {| parseInt := IntRuntime.parse; trim := trimSpaces |}.

End PlainBrowser.

(** ** A visit

    The form is submitted twice, one millisecond apart, while
    [Math.random()] returns 0; the ids are then whole numbers that the
    plain runtime reads back from the text the buttons carry. *)
Module Visit.

Definition start : Page.t :=
  {| Page.controller := Scenario.emptyPage; Page.effects := [] |}.

(** "  Hall Lamp " is typed, a light, online. *)
Definition withLamp : Page.t :=
  @Page.submit PlainBrowser.browser sampleNow (ofZ 0) "10:00:00"
    "  Hall Lamp " "light" "online" start.

(** "Heater" is typed, a thermostat, offline. *)
Definition withHeater : Page.t :=
  @Page.submit PlainBrowser.browser (ofZ 1700000000001) (ofZ 0) "10:00:01"
    "Heater" "thermostat" "offline" withLamp.

Definition lampId : DeviceController.deviceId :=
  DeviceController.IdString "1700000000000".

Definition heaterId : DeviceController.deviceId :=
  DeviceController.IdString "1700000000001".

Definition unknownId : DeviceController.deviceId :=
  DeviceController.IdString "not a number".

(** The two devices as the controller made them. *)
Definition lamp : SmartDevice.t :=
  snd (DeviceController.addDevice sampleNow (ofZ 0) "10:00:00" "Hall Lamp"
         "light" "online" Scenario.emptyPage).

Definition heater : SmartDevice.t :=
  snd (DeviceController.addDevice (ofZ 1700000000001) (ofZ 0) "10:00:01"
         "Heater" "thermostat" "offline" (Page.controller withLamp)).

End Visit.

(** * Properties *)

(** ** Order of numbers *)
Section number_order.

Local Open Scope Qc_scope.

Lemma Qc_lt_le_contra (x y : Qc) : x < y → y ≤ x → False.
Proof. intros Hlt Hle. by apply Qclt_not_le in Hlt. Qed.

End number_order.

Ltac qc_order :=
  repeat match goal with
    | H : ¬ (_ < _)%Qc |- _ => apply Qcnot_lt_le in H
    | H : ¬ (_ ≤ _)%Qc |- _ => apply Qcnot_le_lt in H
    end;
  first
    [ solve [ exfalso;
              eauto 4 using Qc_lt_le_contra, Qclt_le_trans, Qcle_lt_trans,
                Qcle_trans, Qclt_trans ]
    | solve [ f_equal; apply Qcle_antisym;
              eauto 4 using Qcle_trans, Qclt_le_weak, Qcle_refl ]
    | solve [ eauto 4 using Qcle_trans, Qclt_le_weak, Qcle_refl ] ].

(** The expression of [updateAdjustable] is the clamp of the
    specification as soon as the bounds are ordered. *)
Lemma Math_clamp (lo hi v : number) :
  Number.le lo hi = true →
  Number.Math_max lo (Number.Math_min hi v) = clamp v lo hi.
Proof.
  unfold clamp, Number.Math_max, Number.Math_min.
  destruct lo as [| |lo|], hi as [| |hi|], v as [| |v|];
    simpl; intros Hle; try done;
    try apply bool_decide_eq_true in Hle;
    repeat case_bool_decide; try done; qc_order.
Qed.

Lemma le_not_lt (a b : number) : Number.le a b = true → Number.lt b a = false.
Proof.
  destruct a as [| |a|], b as [| |b|]; simpl; try done.
  intros Hle%bool_decide_eq_true. apply bool_decide_eq_false.
  by apply Qcle_not_lt.
Qed.

Lemma clamp_below (v lo hi : number) :
  Number.lt v lo = true → clamp v lo hi = lo.
Proof. unfold clamp. by intros ->. Qed.

Lemma clamp_above (v lo hi : number) :
  Number.le lo hi = true → Number.lt hi v = true → clamp v lo hi = hi.
Proof.
  unfold clamp. intros Hle Hlt. rewrite Hlt.
  destruct (Number.lt v lo) eqn:Hlo; [|done].
  destruct lo as [| |lo|], hi as [| |hi|], v as [| |v|]; simpl in *; try done.
  apply bool_decide_eq_true in Hle, Hlt, Hlo. qc_order.
Qed.

Lemma clamp_within (v lo hi : number) :
  Number.le lo v = true → Number.le v hi = true → clamp v lo hi = v.
Proof.
  unfold clamp. intros Hlo%le_not_lt Hhi%le_not_lt. by rewrite Hlo, Hhi.
Qed.

Lemma clamp_inRange (v lo hi : number) :
  Number.le lo hi = true → v ≠ NaN → inRange lo hi (clamp v lo hi) = true.
Proof.
  unfold clamp, inRange. intros Hle Hv.
  destruct lo as [| |lo|], hi as [| |hi|], v as [| |v|];
    simpl in *; try done;
    try apply bool_decide_eq_true in Hle;
    repeat case_bool_decide; simpl; try done;
    repeat case_bool_decide; simpl; try done; qc_order.
Qed.

(** Unfolds the accessors of the inherited fields. *)
Ltac fields :=
  unfold SmartDevice.powerState, SmartDevice.name, SmartDevice.type,
    SmartDevice.connectivity, SmartDevice.id, SmartDevice.with_base in *;
  simpl in *.

(** ** Devices *)
Section device.

Context `{Runtime}.

Lemma with_base_id (d : SmartDevice.t) :
  SmartDevice.with_base (SmartDevice.base d) d = d.
Proof. by destruct d. Qed.

(** C1. On a device whose connectivity is "offline", [togglePower()] (of
    the base class and of the derived class) and [updateAdjustable(v)],
    for every [v], return [{ success: false, message: "Device is offline" }]
    and the device after the call is the device before it, so that
    [powerState] and [adjustableParam.value] are what they were. *)
Theorem offline_operations_rejected (d : SmartDevice.t) (v : number) :
  SmartDevice.connectivity d = "offline" →
  Device.togglePower (SmartDevice.base d)
    = (SmartDevice.base d, offlineOutcome) ∧
  SmartDevice.togglePower d = (d, offlineOutcome) ∧
  SmartDevice.updateAdjustable v d = (d, offlineOutcome) ∧
  SmartDevice.powerState (fst (SmartDevice.togglePower d))
    = SmartDevice.powerState d ∧
  Param.value (SmartDevice.adjustableParam
                 (fst (SmartDevice.updateAdjustable v d)))
    = Param.value (SmartDevice.adjustableParam d).
Proof.
  intros Hoff.
  assert (Hbase : Device.togglePower (SmartDevice.base d)
                  = (SmartDevice.base d, offlineOutcome)).
  { unfold Device.togglePower. unfold SmartDevice.connectivity in Hoff.
    by rewrite decide_True. }
  assert (Htoggle : SmartDevice.togglePower d = (d, offlineOutcome)).
  { unfold SmartDevice.togglePower. rewrite Hbase. simpl.
    by rewrite with_base_id. }
  assert (Hupdate : SmartDevice.updateAdjustable v d = (d, offlineOutcome)).
  { unfold SmartDevice.updateAdjustable. by rewrite decide_True. }
  by rewrite Htoggle, Hupdate.
Qed.

Lemma togglePower_online (d : SmartDevice.t) :
  SmartDevice.connectivity d ≠ "offline" →
  SmartDevice.togglePower d
  = (SmartDevice.with_base
       (Device.mk (SmartDevice.name d) (SmartDevice.type d)
          (negb (SmartDevice.powerState d)) (SmartDevice.connectivity d)
          (SmartDevice.id d)) d,
     {| success := true;
        message := "Device turned "
                     +:+ (if negb (SmartDevice.powerState d) then "ON"
                          else "OFF") |}).
Proof.
  intros Hon. unfold SmartDevice.togglePower, Device.togglePower.
  unfold SmartDevice.connectivity in Hon. by rewrite decide_False.
Qed.

(** C8. On an online device two calls of [togglePower()] in a row both
    succeed and give back the device they started from; in particular
    [powerState] is the original one. *)
Theorem togglePower_twice (d : SmartDevice.t) :
  SmartDevice.connectivity d = "online" →
  let first := SmartDevice.togglePower d in
  let second := SmartDevice.togglePower (fst first) in
  success (snd first) = true ∧
  success (snd second) = true ∧
  SmartDevice.powerState (fst first) = negb (SmartDevice.powerState d) ∧
  SmartDevice.powerState (fst second) = SmartDevice.powerState d ∧
  fst second = d.
Proof.
  intros Hon first second. subst first second.
  assert (Hne : SmartDevice.connectivity d ≠ "offline") by by rewrite Hon.
  rewrite (togglePower_online d Hne). cbn [fst snd].
  rewrite togglePower_online by done.
  destruct d as [[n t p c i] h a].
  split_and!; fields; by rewrite ?negb_involutive.
Qed.

Lemma updateAdjustable_online (v : number) (d : SmartDevice.t) :
  SmartDevice.connectivity d ≠ "offline" →
  let p := SmartDevice.adjustableParam d in
  let clamped :=
    Number.Math_max (Param.min p) (Number.Math_min (Param.max p) v) in
  SmartDevice.updateAdjustable v d
  = (SmartDevice.mk (SmartDevice.base d) (SmartDevice.hasAdjustable d)
       (Param.set_value clamped p),
     {| success := true;
        message := Param.name p +:+ " set to " +:+ toString clamped |}).
Proof.
  intros Hon. unfold SmartDevice.updateAdjustable. by rewrite decide_False.
Qed.

(** What [togglePower()] leaves alone: everything but [powerState]. *)
Lemma togglePower_frame (d : SmartDevice.t) :
  let d' := fst (SmartDevice.togglePower d) in
  SmartDevice.id d' = SmartDevice.id d ∧
  SmartDevice.name d' = SmartDevice.name d ∧
  SmartDevice.type d' = SmartDevice.type d ∧
  SmartDevice.connectivity d' = SmartDevice.connectivity d ∧
  SmartDevice.hasAdjustable d' = SmartDevice.hasAdjustable d ∧
  SmartDevice.adjustableParam d' = SmartDevice.adjustableParam d.
Proof.
  unfold SmartDevice.togglePower, Device.togglePower.
  destruct d as [[n t p c i] h a]. by case_decide.
Qed.

(** What [updateAdjustable(v)] leaves alone: everything but
    [adjustableParam.value]. *)
Lemma updateAdjustable_frame (v : number) (d : SmartDevice.t) :
  let d' := fst (SmartDevice.updateAdjustable v d) in
  SmartDevice.base d' = SmartDevice.base d ∧
  SmartDevice.hasAdjustable d' = SmartDevice.hasAdjustable d ∧
  Param.name (SmartDevice.adjustableParam d')
    = Param.name (SmartDevice.adjustableParam d) ∧
  Param.min (SmartDevice.adjustableParam d')
    = Param.min (SmartDevice.adjustableParam d) ∧
  Param.max (SmartDevice.adjustableParam d')
    = Param.max (SmartDevice.adjustableParam d).
Proof. unfold SmartDevice.updateAdjustable. by case_decide. Qed.

(** C10. [togglePower()] leaves [id], [name], [type], [connectivity],
    [hasAdjustable] and the whole [adjustableParam] (name, value, min,
    max) as they were; [updateAdjustable(v)] leaves [id], [name], [type],
    [powerState], [connectivity], [hasAdjustable] and the name, min and
    max of [adjustableParam] as they were.  This holds for every device,
    online or not, and every [v]. *)
Theorem operations_frame (d : SmartDevice.t) (v : number) :
  let toggled := fst (SmartDevice.togglePower d) in
  let updated := fst (SmartDevice.updateAdjustable v d) in
  (SmartDevice.id toggled = SmartDevice.id d ∧
   SmartDevice.name toggled = SmartDevice.name d ∧
   SmartDevice.type toggled = SmartDevice.type d ∧
   SmartDevice.connectivity toggled = SmartDevice.connectivity d ∧
   SmartDevice.hasAdjustable toggled = SmartDevice.hasAdjustable d ∧
   Param.name (SmartDevice.adjustableParam toggled)
     = Param.name (SmartDevice.adjustableParam d) ∧
   Param.min (SmartDevice.adjustableParam toggled)
     = Param.min (SmartDevice.adjustableParam d) ∧
   Param.max (SmartDevice.adjustableParam toggled)
     = Param.max (SmartDevice.adjustableParam d) ∧
   Param.value (SmartDevice.adjustableParam toggled)
     = Param.value (SmartDevice.adjustableParam d)) ∧
  (SmartDevice.id updated = SmartDevice.id d ∧
   SmartDevice.name updated = SmartDevice.name d ∧
   SmartDevice.type updated = SmartDevice.type d ∧
   SmartDevice.connectivity updated = SmartDevice.connectivity d ∧
   SmartDevice.hasAdjustable updated = SmartDevice.hasAdjustable d ∧
   Param.name (SmartDevice.adjustableParam updated)
     = Param.name (SmartDevice.adjustableParam d) ∧
   Param.min (SmartDevice.adjustableParam updated)
     = Param.min (SmartDevice.adjustableParam d) ∧
   Param.max (SmartDevice.adjustableParam updated)
     = Param.max (SmartDevice.adjustableParam d) ∧
   SmartDevice.powerState updated = SmartDevice.powerState d).
Proof.
  intros toggled updated.
  destruct (togglePower_frame d) as (Hid & Hname & Htype & Hconn & Hadj & Hp).
  destruct (updateAdjustable_frame v d) as (Hb & Hadj' & Hpn & Hmin & Hmax).
  fold toggled in Hid, Hname, Htype, Hconn, Hadj, Hp.
  fold updated in Hb, Hadj', Hpn, Hmin, Hmax.
  unfold SmartDevice.id, SmartDevice.name, SmartDevice.type,
    SmartDevice.connectivity, SmartDevice.powerState.
  by rewrite Hb, Hp.
Qed.

(** The bounds of a registry device are ordered, and its value lies
    between them unless [NaN] was requested. *)
Lemma paramFor_ordered (type : string) (p : Param.t) :
  DeviceController.paramFor type = Some p →
  Number.le (Param.min p) (Param.max p) = true.
Proof.
  unfold DeviceController.paramFor.
  repeat case_decide; intros [= <-]; by vm_compute.
Qed.

Lemma paramFor_is_Some (type : string) :
  is_Some (DeviceController.paramFor type).
Proof. unfold DeviceController.paramFor. repeat case_decide; eauto. Qed.

Lemma addDevice_device now rnd timestamp name type connectivity this :
  snd (DeviceController.addDevice now rnd timestamp name type connectivity
         this)
  = SmartDevice.mk
      (Device.mk name type false connectivity (Number.add now rnd))
      (bool_decide (type ∈ DeviceController.adjustableTypes))
      (default SmartDevice.fallbackParam (DeviceController.paramFor type)).
Proof. reflexivity. Qed.

Lemma RegistryDevice_ordered (d : SmartDevice.t) :
  RegistryDevice d →
  Number.le (Param.min (SmartDevice.adjustableParam d))
    (Param.max (SmartDevice.adjustableParam d)) = true.
Proof.
  induction 1 as [now rnd ts name type conn this|op d Hd IH].
  - rewrite addDevice_device. simpl.
    destruct (paramFor_is_Some type) as [p Hp]. rewrite Hp. simpl.
    by eapply paramFor_ordered.
  - destruct op as [|v| |s]; unfold perform; [| |done|done].
    + destruct (togglePower_frame d) as (_ & _ & _ & _ & _ & ->). done.
    + destruct (updateAdjustable_frame v d) as (_ & _ & _ & -> & ->). done.
Qed.

Lemma updateAdjustable_stores_clamp (v : number) (d : SmartDevice.t) :
  SmartDevice.connectivity d ≠ "offline" →
  let p := SmartDevice.adjustableParam d in
  Number.le (Param.min p) (Param.max p) = true →
  success (snd (SmartDevice.updateAdjustable v d)) = true ∧
  Param.value (SmartDevice.adjustableParam
                 (fst (SmartDevice.updateAdjustable v d)))
    = clamp v (Param.min p) (Param.max p).
Proof.
  intros Hon p Hord. rewrite (updateAdjustable_online v d Hon). simpl.
  split; [done|]. by apply Math_clamp.
Qed.

(** C2. On an online device of the registry, for every requested value
    [v], [updateAdjustable(v)] stores the clamp of [v] between the min
    and max of the parameter: min when [v < min], max when [v > max], [v]
    itself when [min <= v <= max]; the outcome is a success and its
    message is the parameter's name, " set to ", and the stored value
    (the clamped one, not [v]). *)
Theorem updateAdjustable_clamps (d : SmartDevice.t) (v : number) :
  RegistryDevice d →
  SmartDevice.connectivity d = "online" →
  let p := SmartDevice.adjustableParam d in
  let result := SmartDevice.updateAdjustable v d in
  let stored := Param.value (SmartDevice.adjustableParam (fst result)) in
  stored = clamp v (Param.min p) (Param.max p) ∧
  (Number.lt v (Param.min p) = true → stored = Param.min p) ∧
  (Number.lt (Param.max p) v = true → stored = Param.max p) ∧
  (Number.le (Param.min p) v = true → Number.le v (Param.max p) = true →
   stored = v) ∧
  success (snd result) = true ∧
  message (snd result) = Param.name p +:+ " set to " +:+ toString stored.
Proof.
  intros Hreg Hon p result stored.
  assert (Hne : SmartDevice.connectivity d ≠ "offline") by by rewrite Hon.
  pose proof (RegistryDevice_ordered d Hreg) as Hord. fold p in Hord.
  assert (Hstored : stored = clamp v (Param.min p) (Param.max p)).
  { subst stored result. rewrite (updateAdjustable_online v d Hne).
    simpl. by apply Math_clamp. }
  split_and!.
  - done.
  - intros Hlt. rewrite Hstored. by apply clamp_below.
  - intros Hlt. rewrite Hstored. by apply clamp_above.
  - intros Hlo Hhi. rewrite Hstored. by apply clamp_within.
  - subst result. by rewrite (updateAdjustable_online v d Hne).
  - subst stored result. by rewrite (updateAdjustable_online v d Hne).
Qed.

(** C6, as amended.  An operation other than [setConnectivity] leaves
    [connectivity] as it was; [setConnectivity(status)] stores [status];
    the constructor sets "online" and [addDevice] then calls
    [setConnectivity] with its third argument, which is the connectivity
    of the device it returns. *)
Theorem connectivity_written_by_setConnectivity_only
    (d : SmartDevice.t) (op : operation) (status : string)
    (now rnd : number) (timestamp name type connectivity : string)
    (hasAdjustable : option bool) (adjustableParam : option Param.t)
    (this : DeviceController.t) :
  isSetConnectivity op = false →
  SmartDevice.connectivity (perform op d) = SmartDevice.connectivity d ∧
  SmartDevice.connectivity (perform (SetConnectivity status) d) = status ∧
  SmartDevice.connectivity
    (SmartDevice.new now rnd name type hasAdjustable adjustableParam)
    = "online" ∧
  SmartDevice.connectivity
    (snd (DeviceController.addDevice now rnd timestamp name type
            connectivity this))
    = connectivity.
Proof.
  intros Hop. split_and!; [|done..].
  destruct op as [|v| |s]; unfold perform; [| |done|done].
  - by destruct (togglePower_frame d) as (_ & _ & _ & -> & _).
  - destruct (updateAdjustable_frame v d) as (Hb & _).
    unfold SmartDevice.connectivity. by rewrite Hb.
Qed.

Lemma paramFor_unknown (type : string) :
  type ∉ DeviceController.adjustableTypes →
  DeviceController.paramFor type
  = Some (Param.mk "Level" (ofZ 50) (ofZ 0) (ofZ 100)).
Proof.
  unfold DeviceController.paramFor, DeviceController.adjustableTypes.
  intros Hty. repeat case_decide; try done; subst; exfalso; apply Hty;
    repeat constructor.
Qed.

(** C3. The device that [addDevice] returns is off, whatever the type,
    and its [adjustableParam] is the row of the table: Brightness 50 0
    100 for "light", Speed 3 0 5 for "fan", Temperature 24 16 30 for
    "ac", Temperature 22 16 30 for "thermostat", and Level 50 0 100 for
    "security" and for every type that is none of the four. *)
Theorem addDevice_profile
    (now rnd : number) (timestamp name type connectivity : string)
    (this : DeviceController.t) :
  type ∉ DeviceController.adjustableTypes →
  let device ty :=
    snd (DeviceController.addDevice now rnd timestamp name ty connectivity
           this) in
  (∀ ty, SmartDevice.powerState (device ty) = false) ∧
  SmartDevice.adjustableParam (device "light")
    = Param.mk "Brightness" (ofZ 50) (ofZ 0) (ofZ 100) ∧
  SmartDevice.adjustableParam (device "fan")
    = Param.mk "Speed" (ofZ 3) (ofZ 0) (ofZ 5) ∧
  SmartDevice.adjustableParam (device "ac")
    = Param.mk "Temperature" (ofZ 24) (ofZ 16) (ofZ 30) ∧
  SmartDevice.adjustableParam (device "thermostat")
    = Param.mk "Temperature" (ofZ 22) (ofZ 16) (ofZ 30) ∧
  SmartDevice.adjustableParam (device "security")
    = Param.mk "Level" (ofZ 50) (ofZ 0) (ofZ 100) ∧
  SmartDevice.adjustableParam (device type)
    = Param.mk "Level" (ofZ 50) (ofZ 0) (ofZ 100).
Proof.
  intros Hty device. split_and!; try done.
  subst device. cbv beta. rewrite addDevice_device. simpl.
  by rewrite paramFor_unknown.
Qed.

(** C9. [addDevice] hands a parameter object to the constructor for
    every type (never [null]), so every device has one and, when online,
    [updateAdjustable(v)] succeeds and stores the clamp of [v] for that
    parameter.  For "security" and every type that is none of the four,
    [hasAdjustable] is false and the parameter is Level 50 0 100: the
    call stores the clamp of [v] between 0 and 100, which lies in that
    range unless [v] is [NaN]. *)
Theorem addDevice_always_adjustable
    (now rnd : number) (timestamp name type : string)
    (this : DeviceController.t) (v : number) :
  type ∉ DeviceController.adjustableTypes →
  let device ty :=
    snd (DeviceController.addDevice now rnd timestamp name ty "online"
           this) in
  let stored ty :=
    Param.value (SmartDevice.adjustableParam
                   (fst (SmartDevice.updateAdjustable v (device ty)))) in
  (∀ ty, ∃ p,
     DeviceController.paramFor ty = Some p ∧
     SmartDevice.adjustableParam (device ty) = p ∧
     success (snd (SmartDevice.updateAdjustable v (device ty))) = true ∧
     stored ty = clamp v (Param.min p) (Param.max p)) ∧
  SmartDevice.hasAdjustable (device type) = false ∧
  SmartDevice.adjustableParam (device type)
    = Param.mk "Level" (ofZ 50) (ofZ 0) (ofZ 100) ∧
  stored type = clamp v (ofZ 0) (ofZ 100) ∧
  (inRange (ofZ 0) (ofZ 100) (stored type) = true ∨ v = NaN).
Proof.
  intros Hty device stored.
  assert (Hall : ∀ ty, ∃ p,
    DeviceController.paramFor ty = Some p ∧
    SmartDevice.adjustableParam (device ty) = p ∧
    success (snd (SmartDevice.updateAdjustable v (device ty))) = true ∧
    stored ty = clamp v (Param.min p) (Param.max p)).
  { intros ty. destruct (paramFor_is_Some ty) as [p Hp]. exists p.
    assert (Hparam : SmartDevice.adjustableParam (device ty) = p).
    { subst device. cbv beta. rewrite addDevice_device. simpl.
      by rewrite Hp. }
    assert (Hon : SmartDevice.connectivity (device ty) ≠ "offline") by done.
    destruct (updateAdjustable_stores_clamp v (device ty) Hon)
      as [Hsuccess Hstored].
    { rewrite Hparam. by eapply paramFor_ordered. }
    rewrite Hparam in Hstored. done. }
  destruct (Hall type) as (p & Hp & Hparam & _ & Hstored).
  rewrite paramFor_unknown in Hp by done. injection Hp as <-.
  split_and!; try done.
  - subst device. cbv beta. rewrite addDevice_device. simpl.
    by apply bool_decide_eq_false.
  - rewrite Hstored. simpl. destruct (decide (v = NaN)) as [->|Hv]; [by right|].
    left. by apply clamp_inRange.
Qed.

End device.

(** C6, counterexample.  A device as the constructor leaves it is online;
    [setConnectivity("offline")], an operation that every device offers,
    makes it offline. *)
Lemma setConnectivity_changes_connectivity :
  let d :=
    SmartDevice.new sampleNow sampleRandom "Hall Light" "light" None None in
  SmartDevice.connectivity d = "online" ∧
  SmartDevice.connectivity
    (@perform IntRuntime.runtime (SetConnectivity "offline") d)
    ≠ SmartDevice.connectivity d.
Proof. by split. Qed.

(** ** The activity log *)
Section activity_log.

Import DeviceController.

Lemma children_app (l1 l2 : list Dom.node) :
  Dom.children (l1 ++ l2) = Dom.children l1 ++ Dom.children l2.
Proof. apply filter_app. Qed.

(** Dropping the last node does not change the first [logCap] elements
    when there are more than [logCap] of them. *)
Lemma children_removeChild_last (l : list Dom.node) :
  logCap < length (Dom.children l) →
  take logCap (Dom.children (Dom.removeChild_last l))
  = take logCap (Dom.children l).
Proof.
  unfold Dom.removeChild_last.
  destruct l as [|n l _] using rev_ind; [done|].
  rewrite removelast_last, children_app, length_app.
  destruct n as [c h|t].
  - change (Dom.children [Dom.Element c h]) with [Dom.Element c h].
    simpl. intros Hlen. rewrite take_app_le by lia. done.
  - change (Dom.children [Dom.OtherNode t]) with (@nil Dom.node).
    by rewrite app_nil_r.
Qed.

(** The loop keeps the first [logCap] element children. *)
Lemma children_trimLog (l : list Dom.node) :
  Dom.children (trimLog l) = take logCap (Dom.children l).
Proof.
  funelim (trimLog l).
  - match goal with IH : Dom.children _ = take _ _ |- _ => rewrite IH end.
    by apply children_removeChild_last.
  - rewrite take_ge by lia. done.
Qed.

Lemma children_logNodes timestamp message (l : list Dom.node) :
  Dom.children (logNodes timestamp message l)
  = take logCap (logEntry timestamp message :: Dom.children l).
Proof. unfold logNodes. by rewrite children_trimLog. Qed.

Lemma take_app_take {A} (n : nat) (l k : list A) :
  take n (l ++ take n k) = take n (l ++ k).
Proof.
  rewrite !take_app, take_take. do 2 f_equal. lia.
Qed.

Lemma logAll_snoc (calls : list (string * string)) call (this : t) :
  logAll (calls ++ [call]) this
  = logActivity call.1 call.2 (logAll calls this).
Proof. unfold logAll. by rewrite foldl_app. Qed.

(** After one call or more the element children are the entries of the
    calls, newest first, followed by the old ones, cut at [logCap]. *)
Lemma children_logAll (calls : list (string * string)) (this : t) :
  calls ≠ [] →
  Dom.children (activityLog (logAll calls this))
  = take logCap
      (reverse ((λ call, logEntry call.1 call.2) <$> calls)
         ++ Dom.children (activityLog this)).
Proof.
  induction calls as [|call calls IH] using rev_ind; [done|]. intros _.
  rewrite logAll_snoc, fmap_app, reverse_app.
  change (reverse ((λ call, logEntry call.1 call.2) <$> [call]))
    with [logEntry call.1 call.2].
  cbn [logActivity activityLog]. rewrite children_logNodes.
  destruct (decide (calls = [])) as [->|Hne]; [done|].
  rewrite (IH Hne), <- app_assoc.
  apply (take_app_take logCap [logEntry call.1 call.2]).
Qed.

(** C5. [logActivity(message)] puts a new entry, made of the time and
    the message, in front of the entries of the log and keeps the first
    50 of the result, so entries leave from the back and never more than
    50 remain: exactly 50 once the log held 50.  The devices are not
    touched.  After 60 calls in a row, whatever the log held before, the
    entries are exactly those of the last 50 calls, newest first. *)
Theorem logActivity_capped
    (timestamp message : string) (calls : list (string * string))
    (this : t) :
  length calls = 60 →
  let entries c := Dom.children (activityLog c) in
  let after := logActivity timestamp message this in
  logEntry timestamp message
    = Dom.Element "log-entry"
        (nl +:+ "            <span class=" +:+ dq +:+ "timestamp" +:+ dq
            +:+ ">[" +:+ timestamp +:+ "]</span> " +:+ message +:+ nl
            +:+ "        ") ∧
  entries after = take 50 (logEntry timestamp message :: entries this) ∧
  devices after = devices this ∧
  (length (entries after) ≤ 50)%nat ∧
  ((50 ≤ length (entries this))%nat → length (entries after) = 50) ∧
  length (entries (logAll calls this)) = 50 ∧
  entries (logAll calls this)
    = reverse ((λ call, logEntry call.1 call.2) <$> drop 10 calls).
Proof.
  intros Hlen entries after.
  assert (Hafter : entries after
                   = take 50 (logEntry timestamp message :: entries this)).
  { subst entries after. cbn [logActivity activityLog].
    apply children_logNodes. }
  assert (Hall : entries (logAll calls this)
                 = reverse ((λ call, logEntry call.1 call.2)
                              <$> drop 10 calls)).
  { subst entries. cbv beta. rewrite children_logAll by by intros ->.
    unfold logCap. rewrite take_app_le
      by (rewrite length_reverse, length_fmap; lia).
    rewrite take_reverse, length_fmap, Hlen, fmap_drop. done. }
  split_and!; try done.
  - rewrite Hafter, length_take. lia.
  - intros Hfull. rewrite Hafter, length_take. cbn [length]. lia.
  - rewrite Hall, length_reverse, length_fmap, length_drop. lia.
Qed.

End activity_log.

(** ** The registry *)
Section registry.

Context `{Runtime}.
Import DeviceController.

Lemma strict_eq_true (a b : number) :
  Number.strict_eq a b = true → a = b.
Proof.
  destruct a, b; simpl; try done; by intros ?%bool_decide_eq_true.
Qed.

(** The id of a new device is the sum of the two readings, whatever the
    registry holds. *)
Lemma addDevice_id now rnd timestamp name type connectivity this :
  SmartDevice.id
    (snd (addDevice now rnd timestamp name type connectivity this))
  = Number.add now rnd.
Proof. reflexivity. Qed.

(** [addDevice] appends the device and logs one entry. *)
Lemma addDevice_devices now rnd timestamp name type connectivity this :
  let result := addDevice now rnd timestamp name type connectivity this in
  devices (fst result) = devices this ++ [snd result].
Proof. reflexivity. Qed.

(** What [list_find] says of the list around the element found. *)
Lemma list_find_split {A} (P : A → Prop) `{∀ x, Decision (P x)}
    (l : list A) (i : nat) (x : A) :
  list_find P l = Some (i, x) →
  ∃ l1 l2, l = l1 ++ x :: l2 ∧ length l1 = i ∧ P x ∧
           Forall (λ y, ¬ P y) l1 ∧ delete i l = l1 ++ l2.
Proof.
  intros (Hi & HP & Hbefore)%list_find_Some.
  exists (take i l), (drop (S i) l).
  pose proof (lookup_lt_Some _ _ _ Hi) as Hlt.
  split_and!.
  - by rewrite take_drop_middle.
  - rewrite length_take. lia.
  - done.
  - apply Forall_lookup. intros j y Hj.
    pose proof (lookup_lt_Some _ _ _ Hj) as Hjlt.
    rewrite length_take in Hjlt.
    rewrite lookup_take_lt in Hj by lia. apply (Hbefore j); [done|lia].
  - by rewrite delete_take_drop.
Qed.

(** [removeDevice] on an id that some device has: the first such device
    leaves, the others stay in their order, one entry is logged, the
    result is [true]. *)
Lemma removeDevice_present timestamp (i : deviceId) (this : t) d :
  d ∈ devices this → hasId (parseId i) d →
  ∃ before removed after,
    devices this = before ++ removed :: after ∧
    hasId (parseId i) removed ∧
    Forall (λ d', ¬ hasId (parseId i) d') before ∧
    removeDevice timestamp i this
    = ({| devices := before ++ after;
          activityLog :=
            logNodes timestamp
              ("🗑️ Removed device: " +:+ dq +:+ SmartDevice.name removed
                 +:+ dq)
              (activityLog this) |}, true).
Proof.
  intros Hin Hid.
  destruct (list_find_elem_of (hasId (parseId i)) _ _ Hin Hid)
    as [[index removed] Hfind].
  destruct (list_find_split _ _ _ _ Hfind)
    as (before & after & Hsplit & _ & Hrem & Hbefore & Hdel).
  exists before, removed, after. split_and!; try done.
  unfold removeDevice. rewrite Hfind, Hdel. done.
Qed.

(** [removeDevice] on an id that no device has: nothing changes, log
    included, and the result is [false]. *)
Lemma removeDevice_absent timestamp (i : deviceId) (this : t) :
  Forall (λ d, ¬ hasId (parseId i) d) (devices this) →
  removeDevice timestamp i this = (this, false) ∧
  getDevice i this = None.
Proof.
  intros Hnone. apply (list_find_None (hasId (parseId i))) in Hnone.
  unfold removeDevice, getDevice. by rewrite Hnone.
Qed.

(** When the ids of the registry are pairwise distinct, the device that
    [removeDevice] took out was the only one with that id, and
    [getDevice] no longer finds one. *)
Lemma getDevice_after_removeDevice timestamp (i : deviceId) (this : t) d :
  NoDup (SmartDevice.id <$> devices this) →
  d ∈ devices this → hasId (parseId i) d →
  getDevice i (fst (removeDevice timestamp i this)) = None ∧
  length (devices (fst (removeDevice timestamp i this)))
    = pred (length (devices this)).
Proof.
  intros Hnodup Hin Hid.
  destruct (removeDevice_present timestamp i this d Hin Hid)
    as (before & removed & after & Hsplit & Hrem & Hbefore & ->).
  cbn [fst]. split.
  - unfold getDevice. cbn [devices].
    replace (list_find (hasId (parseId i)) (before ++ after)) with
      (@None (nat * SmartDevice.t)); [done|].
    symmetry. apply list_find_None, Forall_app. split; [done|].
    rewrite Hsplit, fmap_app, fmap_cons in Hnodup.
    apply NoDup_app in Hnodup as (_ & _ & Hnodup).
    apply NoDup_cons in Hnodup as [Hnotin _].
    apply Forall_forall. intros d' Hd' Hid'. apply Hnotin.
    apply strict_eq_true in Hrem, Hid'. rewrite Hrem, <- Hid'.
    by apply list_elem_of_fmap_2.
  - cbn [devices]. rewrite Hsplit, !length_app. simpl. lia.
Qed.

End registry.

(** C7, the code where two devices are created within one millisecond
    and [Math.random()] gives the same value twice.  The light and the fan
    are two devices of one registry with one id; and the fan created after
    the light was removed has the id that the light had. *)
Theorem addDevice_id_collision :
  DeviceController.devices (fst Scenario.withFan)
    = [Scenario.light; Scenario.fan] ∧
  Scenario.light ≠ Scenario.fan ∧
  SmartDevice.id Scenario.light = SmartDevice.id Scenario.fan ∧
  Number.strict_eq (SmartDevice.id Scenario.light)
    (SmartDevice.id Scenario.fan) = true ∧
  Scenario.lightRemoved
    = ({| DeviceController.devices := [];
          DeviceController.activityLog :=
            DeviceController.logNodes "10:00:00"
              ("🗑️ Removed device: " +:+ DeviceController.dq
                 +:+ "Living Room Light" +:+ DeviceController.dq)
              (DeviceController.activityLog (fst Scenario.withLight)) |},
       true) ∧
  SmartDevice.id Scenario.fanAfterLight = SmartDevice.id Scenario.light.
Proof. split_and!; done. Qed.

(** C4, the code on a registry where two devices have one id (the
    registry of C7).  [removeDevice] with the id of the light finds it in
    the collection, takes the light out, keeps the fan, logs an entry and
    returns [true]; [getDevice] with the same id then returns the fan
    instead of nothing. *)
Theorem removeDevice_then_getDevice_finds_duplicate :
  let i := DeviceController.IdNumber (SmartDevice.id Scenario.light) in
  DeviceController.devices (fst Scenario.withFan)
    = [Scenario.light; Scenario.fan] ∧
  DeviceController.hasId (@DeviceController.parseId IntRuntime.runtime i)
    Scenario.light ∧
  Scenario.afterRemoval
    = ({| DeviceController.devices := [Scenario.fan];
          DeviceController.activityLog :=
            DeviceController.logNodes "10:00:01"
              ("🗑️ Removed device: " +:+ DeviceController.dq
                 +:+ "Living Room Light" +:+ DeviceController.dq)
              (DeviceController.activityLog (fst Scenario.withFan)) |},
       true) ∧
  @DeviceController.getDevice IntRuntime.runtime i (fst Scenario.afterRemoval)
    = Some Scenario.fan.
Proof. split_and!; done. Qed.

(** ** The scenarios *)

(** The offline thermostat refuses both operations and stays as it is. *)
Lemma offline_operations_rejected_witness :
  SmartDevice.connectivity Scenario.thermostat = "offline" ∧
  SmartDevice.togglePower Scenario.thermostat
    = (Scenario.thermostat, offlineOutcome) ∧
  @SmartDevice.updateAdjustable IntRuntime.runtime (ofZ 25) Scenario.thermostat
    = (Scenario.thermostat, offlineOutcome).
Proof.
  split; [reflexivity|].
  destruct (@offline_operations_rejected IntRuntime.runtime
              Scenario.thermostat (ofZ 25) eq_refl)
    as (_ & Htoggle & Hupdate & _).
  split; assumption.
Defined.

(** The light, toggled twice, is off again. *)
Lemma togglePower_twice_witness :
  SmartDevice.connectivity Scenario.light = "online" ∧
  SmartDevice.powerState
    (fst (SmartDevice.togglePower
            (fst (SmartDevice.togglePower Scenario.light))))
    = SmartDevice.powerState Scenario.light.
Proof.
  split; [reflexivity|].
  destruct (togglePower_twice Scenario.light eq_refl)
    as (_ & _ & _ & Hpower & _).
  exact Hpower.
Defined.

(** [updateAdjustable(150)] on the light stores 100 and says so. *)
Lemma updateAdjustable_clamps_witness :
  @RegistryDevice IntRuntime.runtime Scenario.light ∧
  SmartDevice.connectivity Scenario.light = "online" ∧
  Param.value
    (SmartDevice.adjustableParam
       (fst (@SmartDevice.updateAdjustable IntRuntime.runtime (ofZ 150)
               Scenario.light)))
    = ofZ 100 ∧
  message (snd (@SmartDevice.updateAdjustable IntRuntime.runtime (ofZ 150)
                  Scenario.light))
    = "Brightness set to 100".
Proof.
  assert (Hreg : @RegistryDevice IntRuntime.runtime Scenario.light)
    by apply created.
  split; [exact Hreg|]. split; [reflexivity|].
  destruct (@updateAdjustable_clamps IntRuntime.runtime Scenario.light
              (ofZ 150) Hreg eq_refl)
    as (_ & _ & Habove & _ & _ & Hmessage).
  split.
  - apply Habove. reflexivity.
  - rewrite Hmessage, Habove; reflexivity.
Defined.

(** [updateAdjustable(150)] leaves the light online. *)
Lemma connectivity_written_by_setConnectivity_only_witness :
  isSetConnectivity (UpdateAdjustable (ofZ 150)) = false ∧
  SmartDevice.connectivity
    (@perform IntRuntime.runtime (UpdateAdjustable (ofZ 150)) Scenario.light)
    = SmartDevice.connectivity Scenario.light.
Proof.
  split; [reflexivity|].
  destruct (@connectivity_written_by_setConnectivity_only IntRuntime.runtime
              Scenario.light (UpdateAdjustable (ofZ 150)) "offline"
              sampleNow sampleRandom "10:00:00" "Main Thermostat"
              "thermostat" "offline" None None Scenario.emptyPage eq_refl)
    as (Hsame & _).
  exact Hsame.
Defined.

(** A type the switch does not know gets the default profile. *)
Lemma addDevice_profile_witness :
  ("doorbell" ∉ DeviceController.adjustableTypes) ∧
  SmartDevice.adjustableParam
    (snd (DeviceController.addDevice sampleNow sampleRandom "10:00:00"
            "Front Door Bell" "doorbell" "online" Scenario.emptyPage))
    = Param.mk "Level" (ofZ 50) (ofZ 0) (ofZ 100).
Proof.
  assert (Hty : "doorbell" ∉ DeviceController.adjustableTypes)
    by (apply (bool_decide_unpack _); vm_compute; exact I).
  split; [exact Hty|].
  destruct (addDevice_profile sampleNow sampleRandom "10:00:00"
              "Front Door Bell" "doorbell" "online" Scenario.emptyPage Hty)
    as (_ & _ & _ & _ & _ & _ & Hlevel).
  exact Hlevel.
Defined.

(** The camera has a parameter: [updateAdjustable(150)] stores 100. *)
Lemma addDevice_always_adjustable_witness :
  ("security" ∉ DeviceController.adjustableTypes) ∧
  SmartDevice.hasAdjustable Scenario.camera = false ∧
  Param.value
    (SmartDevice.adjustableParam
       (fst (@SmartDevice.updateAdjustable IntRuntime.runtime (ofZ 150)
               Scenario.camera)))
    = ofZ 100.
Proof.
  assert (Hty : "security" ∉ DeviceController.adjustableTypes)
    by (apply (bool_decide_unpack _); vm_compute; exact I).
  split; [exact Hty|].
  destruct (@addDevice_always_adjustable IntRuntime.runtime sampleNow
              sampleRandom "10:00:00" "Front Door Camera" "security"
              Scenario.emptyPage (ofZ 150) Hty)
    as (_ & Hflag & _ & Hstored & _).
  split; [exact Hflag|]. exact (eq_trans Hstored eq_refl).
Defined.

(** Sixty entries logged on the empty page: the last fifty remain. *)
Lemma logActivity_capped_witness :
  length Scenario.sixtyCalls = 60 ∧
  Dom.children
    (DeviceController.activityLog
       (DeviceController.logAll Scenario.sixtyCalls Scenario.emptyPage))
  = reverse ((λ call, DeviceController.logEntry call.1 call.2)
               <$> drop 10 Scenario.sixtyCalls).
Proof.
  split; [reflexivity|].
  destruct (logActivity_capped "t60" "event 60" Scenario.sixtyCalls
              Scenario.emptyPage eq_refl)
    as (_ & _ & _ & _ & _ & _ & Hlast).
  exact Hlast.
Defined.

(** * Further properties of the code *)

(** ** Devices, beyond the offline check *)
Section device_more.

Context `{Runtime}.

(** X1. [togglePower()] tests for the string "offline" and nothing else:
    on a device whose connectivity is any other value the call succeeds,
    negates [powerState], and its message is "Device turned " followed by
    the power that [getStatus()] reports afterwards, "ON" or "OFF". *)
Theorem togglePower_accepts_unless_offline (d : SmartDevice.t) :
  SmartDevice.connectivity d ≠ "offline" →
  let result := SmartDevice.togglePower d in
  let status := SmartDevice.getStatus (fst result) in
  success (snd result) = true ∧
  SmartDevice.powerState (fst result) = negb (SmartDevice.powerState d) ∧
  message (snd result) = "Device turned " +:+ Device.status_power status ∧
  Device.status_power status
    = (if SmartDevice.powerState d then "OFF" else "ON") ∧
  Device.status_name status = SmartDevice.name d ∧
  Device.status_type status = SmartDevice.type d ∧
  Device.status_connectivity status = SmartDevice.connectivity d.
Proof.
  intros Hon result status. subst status result.
  rewrite (togglePower_online d Hon).
  destruct d as [[n t p c i] h a]. by destruct p.
Qed.

(** X2. The value that [updateAdjustable] leaves depends on the last
    request only: a call after another one gives the device and the
    outcome that it gives on the original device, for every device, online
    or not, and every pair of requests; so repeating a request changes
    nothing more. *)
Theorem updateAdjustable_last_request_wins
    (d : SmartDevice.t) (v w : number) :
  let first := SmartDevice.updateAdjustable v d in
  SmartDevice.updateAdjustable w (fst first) = SmartDevice.updateAdjustable w d ∧
  SmartDevice.updateAdjustable v (fst first) = first.
Proof.
  intros first. subst first.
  destruct (decide (SmartDevice.connectivity d = "offline")) as [Hoff|Hon].
  - assert (Hrefused : ∀ x, SmartDevice.updateAdjustable x d
                              = (d, offlineOutcome)).
    { intros x. unfold SmartDevice.updateAdjustable. by rewrite decide_True. }
    rewrite !Hrefused. cbn [fst]. by rewrite ?Hrefused.
  - rewrite (updateAdjustable_online v d Hon). cbn [fst].
    match goal with
    | |- context [SmartDevice.updateAdjustable w ?x = _] => set (d1 := x)
    end.
    assert (Hon1 : SmartDevice.connectivity d1 ≠ "offline") by exact Hon.
    rewrite (updateAdjustable_online w d1 Hon1),
      (updateAdjustable_online v d1 Hon1), (updateAdjustable_online w d Hon).
    subst d1.
    by destruct d as [b h [pn pv lo hi]].
Qed.

(** X3. [updateAdjustable(NaN)] on a device that is not offline succeeds
    and stores [NaN], whatever the bounds: [Math.min] and [Math.max] let
    [NaN] through, and the message is the name, " set to " and [NaN]
    spliced. *)
Theorem updateAdjustable_NaN_is_stored (d : SmartDevice.t) :
  SmartDevice.connectivity d ≠ "offline" →
  let result := SmartDevice.updateAdjustable NaN d in
  success (snd result) = true ∧
  Param.value (SmartDevice.adjustableParam (fst result)) = NaN ∧
  message (snd result)
    = Param.name (SmartDevice.adjustableParam d) +:+ " set to "
        +:+ toString NaN.
Proof.
  intros Hon result. subst result.
  rewrite (updateAdjustable_online NaN d Hon). cbn.
  assert (Hnan : Number.Math_max (Param.min (SmartDevice.adjustableParam d))
                   (Number.Math_min (Param.max (SmartDevice.adjustableParam d))
                      NaN) = NaN).
  { unfold Number.Math_max, Number.Math_min.
    by destruct (Param.min (SmartDevice.adjustableParam d)),
         (Param.max (SmartDevice.adjustableParam d)). }
  by rewrite Hnan.
Qed.

Lemma perform_offline (op : operation) (d : SmartDevice.t) :
  isSetConnectivity op = false →
  SmartDevice.connectivity d = "offline" →
  perform op d = d.
Proof.
  intros Hop Hoff. destruct op as [|v| |s]; try done; unfold perform.
  - unfold SmartDevice.togglePower, Device.togglePower.
    unfold SmartDevice.connectivity in Hoff. rewrite decide_True by done.
    apply with_base_id.
  - unfold SmartDevice.updateAdjustable. by rewrite decide_True.
Qed.

Lemma performAll_offline (ops : list operation) (d : SmartDevice.t) :
  keepsConnectivity ops = true →
  SmartDevice.connectivity d = "offline" →
  performAll ops d = d.
Proof.
  unfold performAll, keepsConnectivity.
  induction ops as [|op ops IH]; [done|]. cbn [forallb foldl].
  intros [Hop Hops]%andb_prop Hoff. apply negb_true_iff in Hop.
  rewrite perform_offline by done. by apply IH.
Qed.

(** X4. Taking a device offline freezes it: after [setConnectivity("offline")]
    any sequence of [togglePower], [updateAdjustable] and [getStatus] calls
    leaves it as it is, and [setConnectivity] with the former connectivity
    then gives back the device exactly as it was before going offline. *)
Theorem offline_freezes_device (d : SmartDevice.t) (ops : list operation) :
  keepsConnectivity ops = true →
  let offline := SmartDevice.setConnectivity "offline" d in
  performAll ops offline = offline ∧
  SmartDevice.setConnectivity (SmartDevice.connectivity d)
    (performAll ops offline) = d.
Proof.
  intros Hops offline.
  assert (Hfrozen : performAll ops offline = offline)
    by by apply performAll_offline.
  split; [done|]. rewrite Hfrozen.
  by destruct d as [[n t p c i] h a].
Qed.

End device_more.

(** ** What a device keeps for life *)
Section device_invariant.

Context `{Runtime}.

Lemma perform_profileOf (op : operation) (d : SmartDevice.t) :
  profileOf (perform op d) = profileOf d.
Proof.
  unfold profileOf. destruct op as [|v| |s]; unfold perform; [| |done|].
  - destruct (togglePower_frame d) as (-> & -> & -> & _ & -> & ->). done.
  - destruct (updateAdjustable_frame v d) as (Hb & -> & -> & -> & ->).
    unfold SmartDevice.id, SmartDevice.name, SmartDevice.type.
    by rewrite Hb.
  - by destruct d as [[n t p c i] h a].
Qed.

Lemma clamp_within_or_NaN (lo hi v : number) :
  Number.le lo hi = true →
  let stored := Number.Math_max lo (Number.Math_min hi v) in
  bool_decide (stored = NaN) || inRange lo hi stored = true.
Proof.
  intros Hle stored. subst stored. rewrite Math_clamp by done.
  destruct (decide (v = NaN)) as [->|Hv].
  - by destruct lo, hi.
  - rewrite clamp_inRange by done. apply orb_true_r.
Qed.

Lemma perform_valueWithinOrNaN (op : operation) (d : SmartDevice.t) :
  Number.le (Param.min (SmartDevice.adjustableParam d))
    (Param.max (SmartDevice.adjustableParam d)) = true →
  valueWithinOrNaN d = true → valueWithinOrNaN (perform op d) = true.
Proof.
  intros Hle Hd. unfold valueWithinOrNaN in *.
  destruct op as [|v| |s]; unfold perform; [| |done|done].
  - by destruct (togglePower_frame d) as (_ & _ & _ & _ & _ & ->).
  - destruct (decide (SmartDevice.connectivity d = "offline")) as [Hoff|Hon].
    + unfold SmartDevice.updateAdjustable. by rewrite decide_True.
    + rewrite (updateAdjustable_online v d Hon). cbn.
      by apply clamp_within_or_NaN.
Qed.

(** X5. Whatever operations follow [addDevice], [setConnectivity]
    included, the device keeps the id it got from the two readings, its
    name, its type, its [hasAdjustable] flag and the name, min and max of
    the parameter that [addDevice] chose; the parameter's value stays
    between min and max, or is [NaN] once [NaN] was requested. *)
Theorem device_profile_is_kept
    (now rnd : number) (timestamp name type connectivity : string)
    (this : DeviceController.t) (ops : list operation) :
  let created :=
    snd (DeviceController.addDevice now rnd timestamp name type connectivity
           this) in
  let d := performAll ops created in
  profileOf d = profileOf created ∧
  SmartDevice.id d = Number.add now rnd ∧
  SmartDevice.name d = name ∧
  SmartDevice.type d = type ∧
  SmartDevice.hasAdjustable d
    = bool_decide (type ∈ DeviceController.adjustableTypes) ∧
  DeviceController.paramFor type
    = Some (Param.set_value (Param.value (SmartDevice.adjustableParam created))
              (SmartDevice.adjustableParam d)) ∧
  valueWithinOrNaN d = true.
Proof.
  intros created d.
  assert (Hcreated : valueWithinOrNaN created = true).
  { subst created. rewrite addDevice_device.
    unfold DeviceController.paramFor. by repeat case_decide. }
  assert (Hordered : Number.le (Param.min (SmartDevice.adjustableParam created))
                       (Param.max (SmartDevice.adjustableParam created)) = true).
  { apply RegistryDevice_ordered. subst created. apply created. }
  assert (Hinv : profileOf d = profileOf created ∧ valueWithinOrNaN d = true).
  { subst d. unfold performAll.
    induction ops as [|op ops IH] using rev_ind; [done|].
    rewrite foldl_app. cbn [foldl]. destruct IH as [IHp IHv].
    split.
    - by rewrite perform_profileOf.
    - apply perform_valueWithinOrNaN; [|done].
      unfold profileOf in IHp. injection IHp as _ _ _ _ _ -> ->. done. }
  destruct Hinv as [Hprofile Hvalue].
  destruct (paramFor_is_Some type) as [p Hp].
  assert (Hcp : SmartDevice.adjustableParam created = p).
  { subst created. rewrite addDevice_device. cbn. by rewrite Hp. }
  pose proof Hprofile as Hfields. unfold profileOf in Hfields.
  rewrite Hcp in Hfields.
  injection Hfields as Hid Hname Htype Hflag Hpname Hpmin Hpmax.
  split_and!; try done.
  rewrite Hp, Hcp. f_equal. unfold Param.set_value.
  rewrite Hpname, Hpmin, Hpmax. by destruct p.
Qed.

End device_invariant.

(** ** The registry, beyond one removal *)
Section registry_more.

Context `{Runtime}.
Import DeviceController.

Lemma list_find_cons_snd {A} (P : A → Prop) `{∀ x, Decision (P x)}
    (x : A) (l : list A) :
  snd <$> list_find P (x :: l)
  = if decide (P x) then Some x else snd <$> list_find P l.
Proof.
  cbn. case_decide; [done|]. by destruct (list_find P l) as [[??]|].
Qed.

(** Taking out an element that does not satisfy [P] does not change what
    [find] returns. *)
Lemma list_find_without {A} (P : A → Prop) `{∀ x, Decision (P x)}
    (l1 l2 : list A) (x : A) :
  ¬ P x →
  snd <$> list_find P (l1 ++ x :: l2) = snd <$> list_find P (l1 ++ l2).
Proof.
  intros Hx. induction l1 as [|y l1 IH].
  - cbn [app]. rewrite list_find_cons_snd. by rewrite decide_False.
  - cbn [app]. rewrite !list_find_cons_snd. by rewrite IH.
Qed.

Lemma list_find_snoc_snd {A} (P : A → Prop) `{∀ x, Decision (P x)}
    (l : list A) (x : A) :
  P x →
  snd <$> list_find P (l ++ [x])
  = match snd <$> list_find P l with Some y => Some y | None => Some x end.
Proof.
  intros Hx. induction l as [|y l IH].
  - cbn [app]. rewrite list_find_cons_snd. by rewrite decide_True.
  - cbn [app]. rewrite !list_find_cons_snd. case_decide; [done|]. apply IH.
Qed.

(** X6. [addDevice] puts the new device at the end of the collection:
    the devices already there keep their positions, the collection is one
    longer, [getAllDevices()] ends with the device returned; and the log
    gets the entry "Added new <type>: <name> (<connectivity>)" in front,
    cut at 50 entries. *)
Theorem addDevice_appends
    (now rnd : number) (timestamp name type connectivity : string)
    (this : t) :
  let result := addDevice now rnd timestamp name type connectivity this in
  getAllDevices (fst result) = getAllDevices this ++ [snd result] ∧
  (∀ index d, devices this !! index = Some d →
              devices (fst result) !! index = Some d) ∧
  devices (fst result) !! length (devices this) = Some (snd result) ∧
  length (devices (fst result)) = S (length (devices this)) ∧
  Dom.children (activityLog (fst result))
    = take 50
        (logEntry timestamp
           ("✅ Added new " +:+ type +:+ ": " +:+ dq +:+ name +:+ dq
              +:+ " (" +:+ connectivity +:+ ")")
           :: Dom.children (activityLog this)).
Proof.
  intros result.
  assert (Hdevices : devices (fst result) = devices this ++ [snd result])
    by done.
  split_and!.
  - done.
  - intros index d Hd. rewrite Hdevices. by apply lookup_app_l_Some.
  - rewrite Hdevices. by apply list_lookup_middle.
  - rewrite Hdevices, length_app. simpl. lia.
  - subst result. cbn [addDevice fst logActivity activityLog].
    apply children_logNodes.
Qed.

(** X7. [getDevice] right after [addDevice], asked for the id of the new
    device, returns the first device that has this id: the new device when
    no device of the collection had it, and otherwise the older one. *)
Theorem getDevice_after_addDevice
    (now rnd : number) (timestamp name type connectivity : string)
    (i : deviceId) (this : t) :
  hasId (parseId i)
    (snd (addDevice now rnd timestamp name type connectivity this)) →
  let result := addDevice now rnd timestamp name type connectivity this in
  getDevice i (fst result)
  = match getDevice i this with
    | Some older => Some older
    | None => Some (snd result)
    end.
Proof.
  intros Hid result. unfold getDevice.
  change (devices (fst result)) with (devices this ++ [snd result]).
  by apply list_find_snoc_snd.
Qed.

(** X8. [removeDevice] with an id that some device has removes the first
    device with this id and no other: the devices before it and after it
    stay, in their order; the collection is one shorter; the result is
    [true]; the log gets the entry "Removed device: <name>" with the name
    of the device removed. *)
Theorem removeDevice_takes_first_match
    (timestamp : string) (i : deviceId) (this : t) (d : SmartDevice.t) :
  d ∈ devices this → hasId (parseId i) d →
  let result := removeDevice timestamp i this in
  ∃ before removed after,
    devices this = before ++ removed :: after ∧
    hasId (parseId i) removed ∧
    Forall (λ d', ¬ hasId (parseId i) d') before ∧
    snd result = true ∧
    devices (fst result) = before ++ after ∧
    length (devices (fst result)) = pred (length (devices this)) ∧
    Dom.children (activityLog (fst result))
      = take 50
          (logEntry timestamp
             ("🗑️ Removed device: " +:+ dq +:+ SmartDevice.name removed
                +:+ dq)
             :: Dom.children (activityLog this)).
Proof.
  intros Hin Hid result.
  destruct (removeDevice_present timestamp i this d Hin Hid)
    as (before & removed & after & Hsplit & Hrem & Hbefore & Hresult).
  exists before, removed, after. subst result. rewrite Hresult.
  cbn [fst snd devices activityLog].
  split_and!; try done.
  - rewrite Hsplit, !length_app. simpl. lia.
  - apply children_logNodes.
Qed.

(** X9. [removeDevice] with an id that no device has returns [false] and
    leaves the collection and the log as they are; [getDevice] with this
    id returns [undefined]. *)
Theorem removeDevice_unknown_id
    (timestamp : string) (i : deviceId) (this : t) :
  Forall (λ d, ¬ hasId (parseId i) d) (devices this) →
  removeDevice timestamp i this = (this, false) ∧
  getDevice i this = None.
Proof. apply removeDevice_absent. Qed.

(** X10. An id that is [NaN] after normalisation (a string that
    [parseFloat] does not read, or [NaN] itself) is never found:
    [getDevice] returns [undefined] and [removeDevice] returns [false] and
    changes nothing, whatever the collection holds. *)
Theorem NaN_id_is_never_found
    (timestamp : string) (i : deviceId) (this : t) :
  parseId i = NaN →
  getDevice i this = None ∧
  removeDevice timestamp i this = (this, false).
Proof.
  intros Hnan.
  assert (Hnone : Forall (λ d, ¬ hasId (parseId i) d) (devices this)).
  { apply Forall_forall. intros d _. unfold hasId. rewrite Hnan.
    by destruct (SmartDevice.id d). }
  by destruct (removeDevice_absent timestamp i this Hnone).
Qed.

(** X11. [removeDevice] leaves the other lookups alone: for an id [j]
    that normalises to another number than [i], [getDevice(j)] returns
    after [removeDevice(i)] what it returned before. *)
Theorem removeDevice_keeps_other_lookups
    (timestamp : string) (i j : deviceId) (this : t) :
  parseId i ≠ parseId j →
  getDevice j (fst (removeDevice timestamp i this)) = getDevice j this.
Proof.
  intros Hij. unfold removeDevice.
  destruct (list_find (hasId (parseId i)) (devices this))
    as [[index removed]|] eqn:Hfind; [|done].
  destruct (list_find_split _ _ _ _ Hfind)
    as (before & after & Hsplit & _ & Hrem & _ & Hdel).
  unfold getDevice. cbn [fst devices logActivity].
  rewrite Hdel, Hsplit. symmetry. apply list_find_without.
  intros Hj. apply Hij.
  apply strict_eq_true in Hrem, Hj. congruence.
Qed.

(** X12. [removeDevice] never adds a device, never reorders, and takes
    out one device at most: the collection after the call is a
    subsequence of the collection before it, at most one shorter, and
    pairwise distinct ids stay pairwise distinct. *)
Theorem removeDevice_keeps_a_subsequence
    (timestamp : string) (i : deviceId) (this : t) :
  let after := devices (fst (removeDevice timestamp i this)) in
  after `sublist_of` devices this ∧
  (length (devices this) ≤ S (length after))%nat ∧
  (NoDup (SmartDevice.id <$> devices this) →
   NoDup (SmartDevice.id <$> after)).
Proof.
  intros after.
  assert (Hafter : after = devices this ∨
                   ∃ index, index < length (devices this) ∧
                            after = delete index (devices this)).
  { subst after. unfold removeDevice.
    destruct (list_find (hasId (parseId i)) (devices this))
      as [[index removed]|] eqn:Hfind; [|by left].
    right. exists index. split; [|done].
    apply list_find_Some in Hfind as (Hi & _). by eapply lookup_lt_Some. }
  assert (Hsub : after `sublist_of` devices this).
  { destruct Hafter as [->|(index & _ & ->)]; [done|]. apply sublist_delete. }
  split_and!.
  - done.
  - destruct Hafter as [->|(index & Hlt & ->)]; [lia|].
    rewrite length_delete by by apply lookup_lt_is_Some_2. lia.
  - intros Hnodup.
    apply (sublist_NoDup _ (SmartDevice.id <$> devices this)); [done|].
    by apply fmap_sublist.
Qed.

(** X13. When the ids of the collection are pairwise distinct, a removal
    is final: after [removeDevice(id)] took a device out, [getDevice(id)]
    returns [undefined] and a second [removeDevice(id)] returns [false]
    and changes nothing. *)
Theorem removal_is_final_when_ids_are_distinct
    (timestamp timestamp' : string) (i : deviceId) (this : t)
    (d : SmartDevice.t) :
  NoDup (SmartDevice.id <$> devices this) →
  d ∈ devices this → hasId (parseId i) d →
  let after := fst (removeDevice timestamp i this) in
  getDevice i after = None ∧
  removeDevice timestamp' i after = (after, false).
Proof.
  intros Hnodup Hin Hid after.
  destruct (getDevice_after_removeDevice timestamp i this d Hnodup Hin Hid)
    as [Hnone _].
  fold after in Hnone. split; [done|].
  unfold getDevice in Hnone. unfold removeDevice.
  by destruct (list_find (hasId (parseId i)) (devices after)).
Qed.

(** X14. Adding a device and removing it by its id gives back the
    collection, when no device of the collection had this id: the call
    returns [true] and the devices are those from before the addition. *)
Theorem addDevice_then_removeDevice
    (now rnd : number) (timestamp timestamp' name type connectivity : string)
    (i : deviceId) (this : t) :
  hasId (parseId i)
    (snd (addDevice now rnd timestamp name type connectivity this)) →
  Forall (λ d, ¬ hasId (parseId i) d) (devices this) →
  let added := addDevice now rnd timestamp name type connectivity this in
  let removed := removeDevice timestamp' i (fst added) in
  snd removed = true ∧
  devices (fst removed) = devices this.
Proof.
  intros Hid Hfresh added removed.
  assert (Hfind : list_find (hasId (parseId i)) (devices (fst added))
                  = Some (length (devices this), snd added)).
  { change (devices (fst added)) with (devices this ++ [snd added]).
    apply list_find_app_Some. right. split_and!.
    - lia.
    - by apply list_find_None.
    - rewrite Nat.sub_diag. cbn. by rewrite decide_True. }
  subst removed. unfold removeDevice. rewrite Hfind.
  cbn [fst snd logActivity devices]. split; [done|].
  change (devices (fst added)) with (devices this ++ [snd added]).
  rewrite delete_take_drop, take_app_length.
  rewrite drop_ge by (rewrite length_app; simpl; lia).
  by rewrite app_nil_r.
Qed.

End registry_more.

(** ** The log container, node by node *)
Section log_more.

Import DeviceController.

Lemma trimLog_prefix (l : list Dom.node) : trimLog l `prefix_of` l.
Proof.
  funelim (trimLog l); [|done].
  etrans; [eassumption|].
  unfold Dom.removeChild_last.
  destruct childNodes as [|n childNodes _] using rev_ind; [done|].
  rewrite removelast_last. by apply prefix_app_r.
Qed.

Lemma trimLog_under_cap (l : list Dom.node) :
  (length (Dom.children l) ≤ logCap)%nat → trimLog l = l.
Proof.
  intros Hlen. funelim (trimLog l); [lia|done].
Qed.

(** X15. [logActivity] only ever drops nodes from the back of the
    container: what it leaves is a prefix of the new entry followed by the
    old nodes, and it starts with the new entry.  While the container holds
    fewer than 50 elements nothing is dropped at all, other nodes (text)
    included. *)
Theorem logActivity_drops_from_the_back
    (timestamp message : string) (this : t) :
  let nodes := logEntry timestamp message :: activityLog this in
  let after := activityLog (logActivity timestamp message this) in
  after `prefix_of` nodes ∧
  head after = Some (logEntry timestamp message) ∧
  ((length (Dom.children (activityLog this)) < 50)%nat → after = nodes).
Proof.
  intros nodes after.
  assert (Hprefix : after `prefix_of` nodes) by apply trimLog_prefix.
  split_and!.
  - done.
  - assert (Hchildren : Dom.children after
                        = take logCap (logEntry timestamp message
                                         :: Dom.children (activityLog this)))
      by apply children_logNodes.
    destruct Hprefix as [rest Hrest].
    destruct after as [|n after]; [done|].
    subst nodes. by injection Hrest as -> _.
  - intros Hlen. apply trimLog_under_cap.
    change (length (logEntry timestamp message
                      :: Dom.children (activityLog this)) ≤ logCap)%nat.
    cbn [length]. unfold logCap. lia.
Qed.

Lemma logAll_devices (calls : list (string * string)) (this : t) :
  devices (logAll calls this) = devices this.
Proof.
  induction calls as [|call calls IH] using rev_ind; [done|].
  by rewrite logAll_snoc.
Qed.

(** X16. After one call of [logActivity] or more, the entries of the log
    are those of the calls, newest first, followed by the entries that
    were there, the whole cut at 50; from 50 calls on only entries of the
    calls remain.  The devices are not touched. *)
Theorem log_after_calls (calls : list (string * string)) (this : t) :
  calls ≠ [] →
  let entries := (λ call, logEntry call.1 call.2) <$> calls in
  let after := logAll calls this in
  Dom.children (activityLog after)
    = take 50 (reverse entries ++ Dom.children (activityLog this)) ∧
  ((50 ≤ length calls)%nat →
   Dom.children (activityLog after) = take 50 (reverse entries)) ∧
  devices after = devices this.
Proof.
  intros Hcalls entries after.
  assert (Hlog : Dom.children (activityLog after)
                 = take 50 (reverse entries ++ Dom.children (activityLog this)))
    by by apply children_logAll.
  split_and!.
  - done.
  - intros Hlen. rewrite Hlog. apply take_app_le.
    subst entries. by rewrite length_reverse, length_fmap.
  - apply logAll_devices.
Qed.

End log_more.

(** ** The handlers of the page *)
Section page.

Context `{Runtime} `{Browser}.
Import DeviceController.

Lemma findDevice_getDevice (i : deviceId) (c : DeviceController.t) :
  getDevice i c = snd <$> Page.findDevice i c.
Proof. reflexivity. Qed.

Lemma findDevice_None (i : deviceId) (c : DeviceController.t) :
  Forall (λ d, ¬ hasId (parseId i) d) (devices c) →
  Page.findDevice i c = None.
Proof. intros Hnone. by apply list_find_None. Qed.

Lemma findDevice_Some (i : deviceId) (c : DeviceController.t) index device :
  Page.findDevice i c = Some (index, device) →
  devices c !! index = Some device ∧ hasId (parseId i) device.
Proof. by intros (? & ? & _)%list_find_Some. Qed.

Lemma togglePower_refused (d : SmartDevice.t) :
  SmartDevice.connectivity d = "offline" →
  SmartDevice.togglePower d = (d, offlineOutcome).
Proof.
  intros Hoff. unfold SmartDevice.togglePower, Device.togglePower.
  unfold SmartDevice.connectivity in Hoff. rewrite decide_True by done.
  cbn [fst snd]. by rewrite with_base_id.
Qed.

Lemma updateAdjustable_refused (v : number) (d : SmartDevice.t) :
  SmartDevice.connectivity d = "offline" →
  SmartDevice.updateAdjustable v d = (d, offlineOutcome).
Proof.
  intros Hoff. unfold SmartDevice.updateAdjustable. by rewrite decide_True.
Qed.

(** X17. A handler given an id that no device has changes neither the
    collection nor the log: [toggleDevice] and [updateAdjustable] only
    write to the console, [updateSliderDisplay] does nothing, and
    [deleteDevice] writes to the console and alerts "Device not found!"
    without asking for confirmation. *)
Theorem handlers_leave_unknown_id_alone
    (timestamp value : string) (spanPresent answer : bool) (i : deviceId)
    (p : Page.t) :
  Forall (λ d, ¬ hasId (parseId i) d) (devices (Page.controller p)) →
  let notFound := Page.ConsoleError "Device not found:" i None in
  Page.toggleDevice timestamp i p = Page.also [notFound] p ∧
  Page.updateAdjustable timestamp spanPresent i value p
    = Page.Returned (Page.also [notFound] p) ∧
  Page.updateSliderDisplay spanPresent i value p = Page.Returned p ∧
  Page.deleteDevice timestamp answer i p
    = Page.also [notFound; Page.Alert "Device not found!"] p ∧
  Page.controller (Page.also [notFound; Page.Alert "Device not found!"] p)
    = Page.controller p.
Proof.
  intros Hnone notFound.
  pose proof (findDevice_None i _ Hnone) as Hfind.
  unfold Page.toggleDevice, Page.updateAdjustable, Page.updateSliderDisplay,
    Page.deleteDevice.
  by rewrite findDevice_getDevice, Hfind.
Qed.

(** X18. [toggleDevice] on an offline device: the collection is left as
    it is, the log gets the entry "<name>: Device is offline" behind a
    cross, the visitor gets the alert "Device is offline", and
    [renderDevices()] is not called. *)
Theorem toggleDevice_offline
    (timestamp : string) (i : deviceId) (p : Page.t)
    (index : nat) (device : SmartDevice.t) :
  Page.findDevice i (Page.controller p) = Some (index, device) →
  SmartDevice.connectivity device = "offline" →
  let after := Page.toggleDevice timestamp i p in
  devices (Page.controller after) = devices (Page.controller p) ∧
  Dom.children (activityLog (Page.controller after))
    = take 50
        (logEntry timestamp
           ("❌ " +:+ SmartDevice.name device +:+ ": Device is offline")
           :: Dom.children (activityLog (Page.controller p))) ∧
  Page.effects after = Page.effects p ++ [Page.Alert "Device is offline"].
Proof.
  intros Hfind Hoff after. subst after. unfold Page.toggleDevice.
  rewrite Hfind.
  rewrite (togglePower_refused device Hoff). cbn [fst snd success message offlineOutcome].
  apply findDevice_Some in Hfind as [Hindex _].
  cbn [Page.controller Page.effects logActivity devices activityLog
         Page.withDevice].
  split_and!; [by apply list_insert_id| |done].
  apply children_logNodes.
Qed.

(** X19. [toggleDevice] on a device that is not offline changes the
    object that [getDevice] returned, which is the first device of the
    collection with this id: its [powerState] is negated and nothing else
    of it changes; every other place of the collection holds what it held;
    the log gets the entry "<name>: Device turned ON" behind a green disc,
    or "<name>: Device turned OFF" behind a red one; and [renderDevices()]
    is called on the collection as it is now. *)
Theorem toggleDevice_online
    (timestamp : string) (i : deviceId) (p : Page.t)
    (index : nat) (device : SmartDevice.t) :
  Page.findDevice i (Page.controller p) = Some (index, device) →
  SmartDevice.connectivity device ≠ "offline" →
  let after := Page.toggleDevice timestamp i p in
  let toggled := fst (SmartDevice.togglePower device) in
  devices (Page.controller after)
    = <[index := toggled]> (devices (Page.controller p)) ∧
  SmartDevice.powerState toggled = negb (SmartDevice.powerState device) ∧
  profileOf toggled = profileOf device ∧
  SmartDevice.connectivity toggled = SmartDevice.connectivity device ∧
  SmartDevice.adjustableParam toggled = SmartDevice.adjustableParam device ∧
  (∀ other, other ≠ index →
     devices (Page.controller after) !! other
     = devices (Page.controller p) !! other) ∧
  Dom.children (activityLog (Page.controller after))
    = take 50
        (logEntry timestamp
           ((if SmartDevice.powerState device then "🔴" else "🟢")
              +:+ " " +:+ SmartDevice.name device +:+ ": Device turned "
              +:+ (if SmartDevice.powerState device then "OFF" else "ON"))
           :: Dom.children (activityLog (Page.controller p))) ∧
  Page.effects after
    = Page.effects p
        ++ [Page.RenderDevices (devices (Page.controller after))].
Proof.
  intros Hfind Hon after toggled.
  assert (Hafter : after
    = {| Page.controller :=
           logActivity timestamp
             ((if SmartDevice.powerState toggled then "🟢" else "🔴")
                +:+ " " +:+ SmartDevice.name toggled +:+ ": "
                +:+ message (snd (SmartDevice.togglePower device)))
             (Page.withDevice index toggled (Page.controller p));
         Page.effects :=
           Page.effects p
             ++ [Page.RenderDevices
                   (<[index := toggled]> (devices (Page.controller p)))] |}).
  { subst after toggled. unfold Page.toggleDevice. rewrite Hfind.
    by rewrite (togglePower_online device Hon). }
  destruct (togglePower_frame device) as (Hid & Hname & Htype & Hconn & Hflag & Hparam).
  fold toggled in Hid, Hname, Htype, Hconn, Hflag, Hparam.
  assert (Hpower : SmartDevice.powerState toggled
                   = negb (SmartDevice.powerState device)).
  { subst toggled. by rewrite (togglePower_online device Hon). }
  rewrite Hafter.
  cbn [Page.controller Page.effects logActivity devices activityLog
         Page.withDevice].
  split_and!; try done.
  - unfold profileOf. congruence.
  - intros other Hother. by apply list_lookup_insert_ne.
  - rewrite children_logNodes. do 3 f_equal.
    rewrite Hname, Hpower. subst toggled.
    rewrite (togglePower_online device Hon). cbn [snd message].
    by destruct (SmartDevice.powerState device).
Qed.

(** X20. [updateAdjustable(deviceId, value)] on a device that is not
    offline stores the clamp of [parseInt(value)] in the first device with
    this id, but writes the text [value] as given, followed by the unit, to
    the element "value-<deviceId>", and logs "<name>: <parameter> set to
    <stored value>" behind a gear.  When the element is missing the
    handler throws after the device was changed and before the log is
    written. *)
Theorem updateAdjustable_shows_the_value_as_given
    (timestamp value : string) (i : deviceId) (p : Page.t)
    (index : nat) (device : SmartDevice.t) :
  Page.findDevice i (Page.controller p) = Some (index, device) →
  SmartDevice.connectivity device ≠ "offline" →
  let param := SmartDevice.adjustableParam device in
  let stored :=
    Number.Math_max (Param.min param)
      (Number.Math_min (Param.max param) (parseInt value)) in
  let updated :=
    SmartDevice.mk (SmartDevice.base device) (SmartDevice.hasAdjustable device)
      (Param.set_value stored param) in
  let changed := Page.withDevice index updated (Page.controller p) in
  Page.updateAdjustable timestamp true i value p
    = Page.Returned
        {| Page.controller :=
             logActivity timestamp
               ("⚙️ " +:+ SmartDevice.name device +:+ ": " +:+ Param.name param
                  +:+ " set to " +:+ toString stored) changed;
           Page.effects :=
             Page.effects p
               ++ [Page.SetTextContent ("value-" +:+ Page.spliceId i)
                     (value +:+ Page.unitOf device)] |} ∧
  Page.updateAdjustable timestamp false i value p
    = Page.Threw {| Page.controller := changed;
                    Page.effects := Page.effects p |}.
Proof.
  intros Hfind Hon param stored updated changed.
  unfold Page.updateAdjustable. rewrite Hfind.
  rewrite (updateAdjustable_online (parseInt value) device Hon).
  by cbn [fst snd success message].
Qed.

(** X21. [updateAdjustable(deviceId, value)] on an offline device alerts
    "Device is offline" and does nothing else: the collection and the log
    are as before (where [toggleDevice] logs the refusal), and no text is
    written. *)
Theorem updateAdjustable_offline
    (timestamp value : string) (spanPresent : bool) (i : deviceId)
    (p : Page.t) (index : nat) (device : SmartDevice.t) :
  Page.findDevice i (Page.controller p) = Some (index, device) →
  SmartDevice.connectivity device = "offline" →
  ∃ after,
    Page.updateAdjustable timestamp spanPresent i value p
      = Page.Returned after ∧
    devices (Page.controller after) = devices (Page.controller p) ∧
    activityLog (Page.controller after) = activityLog (Page.controller p) ∧
    Page.effects after = Page.effects p ++ [Page.Alert "Device is offline"].
Proof.
  intros Hfind Hoff. unfold Page.updateAdjustable. rewrite Hfind.
  rewrite (updateAdjustable_refused _ device Hoff).
  cbn [fst snd success message offlineOutcome].
  eexists. split; [done|]. cbn [Page.controller Page.effects Page.withDevice
                                  devices activityLog].
  apply findDevice_Some in Hfind as [Hindex _].
  split_and!; [by apply list_insert_id|done|done].
Qed.

(** X22. [deleteDevice] ends in one of three ways, and in no other: the
    id is unknown, and it alerts "Device not found!"; the visitor declines,
    and nothing changes; the visitor confirms, [removeDevice] returns
    [true], and [renderDevices()] is called on what is left.  The alert
    "Failed to delete device. Please try again." is never shown. *)
Theorem deleteDevice_never_fails_to_delete
    (timestamp : string) (answer : bool) (i : deviceId) (p : Page.t) :
  let after := Page.deleteDevice timestamp answer i p in
  let question device :=
    Page.Confirm ("Are you sure you want to delete " +:+ dq
                    +:+ SmartDevice.name device +:+ dq +:+ "?") answer in
  (getDevice i (Page.controller p) = None ∧
   after = Page.also [Page.ConsoleError "Device not found:" i None;
                      Page.Alert "Device not found!"] p) ∨
  (∃ device,
     getDevice i (Page.controller p) = Some device ∧ answer = false ∧
     after = Page.also [question device] p) ∨
  (∃ device,
     getDevice i (Page.controller p) = Some device ∧ answer = true ∧
     removeDevice timestamp i (Page.controller p)
       = (Page.controller after, true) ∧
     Page.effects after
       = Page.effects p
           ++ [question device;
               Page.RenderDevices (devices (Page.controller after))]).
Proof.
  intros after question. subst after. unfold Page.deleteDevice.
  destruct (getDevice i (Page.controller p)) as [device|] eqn:Hget;
    [|by left].
  right. destruct answer; [right|left; by exists device].
  exists device. split_and!; try done.
  - unfold getDevice in Hget. unfold removeDevice.
    destruct (list_find (hasId (parseId i)) (devices (Page.controller p)))
      as [[index found]|]; [done|done].
  - unfold getDevice in Hget. unfold removeDevice.
    destruct (list_find (hasId (parseId i)) (devices (Page.controller p)))
      as [[index found]|]; [done|done].
Qed.

(** X23. A submission whose name is empty once trimmed does not reach the
    controller: the collection and the log are as before, the visitor gets
    the alert "Please enter a device name", the form is not reset and
    [renderDevices()] is not called. *)
Theorem submit_blank_name
    (now rnd : number) (timestamp deviceName deviceType connectivity : string)
    (p : Page.t) :
  trim deviceName = "" →
  let after :=
    Page.submit now rnd timestamp deviceName deviceType connectivity p in
  Page.controller after = Page.controller p ∧
  Page.effects after
    = Page.effects p
        ++ [Page.PreventDefault; Page.Alert "Please enter a device name"].
Proof.
  intros Hblank after. subst after. unfold Page.submit.
  by rewrite decide_True.
Qed.

(** X24. A submission with a name adds one device, named by the trimmed
    text of the field, at the end of the collection, off, with the type
    and the connectivity chosen; then [renderDevices()] is called on the
    new collection, the form is reset and the name field focused. *)
Theorem submit_adds_the_trimmed_name
    (now rnd : number) (timestamp deviceName deviceType connectivity : string)
    (p : Page.t) :
  trim deviceName ≠ "" →
  let after :=
    Page.submit now rnd timestamp deviceName deviceType connectivity p in
  ∃ device,
    devices (Page.controller after)
      = devices (Page.controller p) ++ [device] ∧
    SmartDevice.name device = trim deviceName ∧
    SmartDevice.type device = deviceType ∧
    SmartDevice.connectivity device = connectivity ∧
    SmartDevice.powerState device = false ∧
    SmartDevice.id device = Number.add now rnd ∧
    Page.effects after
      = Page.effects p
          ++ [Page.PreventDefault;
              Page.RenderDevices (devices (Page.controller after));
              Page.FormReset; Page.Focus "deviceName"].
Proof.
  intros Hname after. subst after. unfold Page.submit.
  rewrite decide_False by done.
  by eexists.
Qed.

Lemma logNodes_head (timestamp message : string) (l : list Dom.node) :
  head (logNodes timestamp message l) = Some (logEntry timestamp message).
Proof.
  pose proof (children_logNodes timestamp message l) as Hchildren.
  pose proof (trimLog_prefix
                (Dom.insertBefore_first (logEntry timestamp message) l))
    as [rest Hrest].
  fold (logNodes timestamp message l) in Hrest.
  destruct (logNodes timestamp message l) as [|n after]; [done|].
  unfold Dom.insertBefore_first in Hrest. by injection Hrest as -> _.
Qed.

(** What one handler does to the log: nothing, or one [logActivity]. *)
Lemma run_log (a : Page.action) (p : Page.t) :
  activityLog (Page.controller (Page.run a p))
    = activityLog (Page.controller p) ∨
  ∃ timestamp message,
    activityLog (Page.controller (Page.run a p))
    = logNodes timestamp message (activityLog (Page.controller p)).
Proof.
  destruct a as [now rnd timestamp deviceName deviceType connectivity
                |timestamp i|timestamp spanPresent i value
                |spanPresent i value|timestamp answer i]; unfold Page.run.
  - unfold Page.submit. case_decide; [by left|]. right. by eexists _, _.
  - unfold Page.toggleDevice.
    destruct (Page.findDevice i (Page.controller p)) as [[index device]|];
      [|by left].
    right. cbv zeta. case_match; by eexists _, _.
  - unfold Page.updateAdjustable.
    destruct (Page.findDevice i (Page.controller p)) as [[index device]|];
      [|by left].
    cbv zeta. case_match; [|by left].
    destruct spanPresent; [right; by eexists _, _|by left].
  - unfold Page.updateSliderDisplay.
    destruct (Page.findDevice i (Page.controller p)) as [[index device]|];
      [|by left].
    by destruct spanPresent; left.
  - unfold Page.deleteDevice.
    destruct (getDevice i (Page.controller p)) as [device|]; [|by left].
    destruct answer; [|by left]. cbv zeta.
    unfold removeDevice.
    destruct (list_find (hasId (parseId i)) (devices (Page.controller p)))
      as [[index found]|]; [|by left].
    right. by eexists _, _.
Qed.

(** X25. The cap of the log holds through every handler: after any
    sequence of submissions, toggles, adjustments, slider moves and
    deletions the log has at most 50 entries, or at most as many as it had
    at the start when that was more. *)
Theorem log_stays_capped (actions : list Page.action) (p : Page.t) :
  let entries q := Dom.children (activityLog (Page.controller q)) in
  (length (entries (Page.runAll actions p))
     ≤ Nat.max 50 (length (entries p)))%nat.
Proof.
  intros entries. unfold Page.runAll.
  induction actions as [|a actions IH] using rev_ind; [cbn; lia|].
  rewrite foldl_app. cbn [foldl].
  set (q := foldl (λ p a, Page.run a p) p actions) in *.
  subst entries. cbv beta in *.
  destruct (run_log a q) as [->|(timestamp & message & ->)]; [done|].
  rewrite children_logNodes, length_take. unfold logCap. lia.
Qed.

Lemma fmap_insert_same {A B} (f : A → B) (l : list A) (k : nat) (x y : A) :
  l !! k = Some x → f y = f x → f <$> <[k := y]> l = f <$> l.
Proof.
  intros Hk Hf. rewrite list_fmap_insert, Hf.
  apply list_insert_id. by rewrite list_lookup_fmap, Hk.
Qed.

(** What one handler other than the form's does to the devices: each
    keeps its identity, one may be gone. *)
Lemma run_profiles (a : Page.action) (p : Page.t) :
  Page.isSubmit a = false →
  (profileOf <$> devices (Page.controller (Page.run a p)))
    `sublist_of` (profileOf <$> devices (Page.controller p)).
Proof.
  intros Ha.
  destruct a as [now rnd timestamp deviceName deviceType connectivity
                |timestamp i|timestamp spanPresent i value
                |spanPresent i value|timestamp answer i];
    [done|..]; unfold Page.run.
  - unfold Page.toggleDevice.
    destruct (Page.findDevice i (Page.controller p))
      as [[index device]|] eqn:Hfind; [|done].
    apply findDevice_Some in Hfind as [Hindex _].
    assert (Hsame : profileOf
                      <$> <[index := fst (SmartDevice.togglePower device)]>
                            (devices (Page.controller p))
                    = profileOf <$> devices (Page.controller p)).
    { apply (fmap_insert_same _ _ _ device); [done|].
      apply (perform_profileOf TogglePower). }
    cbv zeta. case_match;
      cbn [Page.controller logActivity devices Page.withDevice];
      by rewrite Hsame.
  - unfold Page.updateAdjustable.
    destruct (Page.findDevice i (Page.controller p))
      as [[index device]|] eqn:Hfind; [|done].
    apply findDevice_Some in Hfind as [Hindex _].
    assert (Hsame : profileOf
                      <$> <[index := fst (SmartDevice.updateAdjustable
                                            (parseInt value) device)]>
                            (devices (Page.controller p))
                    = profileOf <$> devices (Page.controller p)).
    { apply (fmap_insert_same _ _ _ device); [done|].
      apply (perform_profileOf (UpdateAdjustable (parseInt value))). }
    cbv zeta. case_match; [destruct spanPresent|];
      cbn [Page.pageOf Page.controller logActivity devices Page.withDevice];
      by rewrite Hsame.
  - unfold Page.updateSliderDisplay.
    destruct (Page.findDevice i (Page.controller p)) as [[index device]|];
      [|done].
    by destruct spanPresent.
  - unfold Page.deleteDevice.
    destruct (getDevice i (Page.controller p)) as [device|]; [|done].
    destruct answer; [|done]. cbv zeta. unfold removeDevice.
    destruct (list_find (hasId (parseId i)) (devices (Page.controller p)))
      as [[index found]|]; [|done].
    cbn [fst snd Page.controller logActivity devices].
    apply fmap_sublist, sublist_delete.
Qed.

(** X26. Only the form adds devices, and no handler changes what a
    device is: after any sequence of toggles, adjustments, slider moves and
    deletions, the ids, names, types, flags and bounds of the devices, in
    their order, are a subsequence of those at the start, and ids that
    were pairwise distinct still are. *)
Theorem handlers_keep_identities (actions : list Page.action) (p : Page.t) :
  withoutSubmit actions = true →
  let after := Page.runAll actions p in
  (profileOf <$> devices (Page.controller after))
    `sublist_of` (profileOf <$> devices (Page.controller p)) ∧
  (NoDup (SmartDevice.id <$> devices (Page.controller p)) →
   NoDup (SmartDevice.id <$> devices (Page.controller after))).
Proof.
  intros Hactions after.
  assert (Hsub : (profileOf <$> devices (Page.controller after))
                   `sublist_of` (profileOf <$> devices (Page.controller p))).
  { subst after. unfold Page.runAll, withoutSubmit in *.
    induction actions as [|a actions IH] using rev_ind; [done|].
    rewrite forallb_app in Hactions.
    apply andb_prop in Hactions as [Hactions Ha]. cbn in Ha.
    rewrite andb_true_r in Ha. apply negb_true_iff in Ha.
    rewrite foldl_app. cbn [foldl].
    etrans; [by apply run_profiles|by apply IH]. }
  split; [done|]. intros Hnodup.
  assert (Hids : ∀ l : list SmartDevice.t,
            SmartDevice.id <$> l = (λ x, x.1.1.1.1) <$> (profileOf <$> l)).
  { intros l. rewrite <- list_fmap_compose. done. }
  rewrite Hids in *.
  apply (sublist_NoDup _ ((λ x, x.1.1.1.1)
                            <$> (profileOf <$> devices (Page.controller p))));
    [done|].
  by apply fmap_sublist.
Qed.

(** X27. The [DOMContentLoaded] listener adds four devices behind those
    the collection held: "Living Room Light", "Bedroom Fan", "Main AC" and
    "Main Thermostat", a light, a fan, an ac and a thermostat, all off, the
    thermostat alone offline, each with the id of its own readings; it
    calls [renderDevices()] on the result and then logs "System
    initialized successfully" behind a rocket. *)
Theorem domContentLoaded_adds_four_devices
    (r1 r2 r3 r4 : Page.readings) (timestamp : string) (p : Page.t) :
  let after := Page.domContentLoaded r1 r2 r3 r4 timestamp p in
  let old := devices (Page.controller p) in
  let added := drop (length old) (devices (Page.controller after)) in
  take (length old) (devices (Page.controller after)) = old ∧
  SmartDevice.name <$> added
    = ["Living Room Light"; "Bedroom Fan"; "Main AC"; "Main Thermostat"] ∧
  SmartDevice.type <$> added = ["light"; "fan"; "ac"; "thermostat"] ∧
  SmartDevice.connectivity <$> added
    = ["online"; "online"; "online"; "offline"] ∧
  SmartDevice.powerState <$> added = [false; false; false; false] ∧
  SmartDevice.id <$> added
    = (λ r, Number.add (Page.now r) (Page.random r)) <$> [r1; r2; r3; r4] ∧
  Page.effects after
    = Page.effects p
        ++ [Page.RenderDevices (devices (Page.controller after))] ∧
  head (activityLog (Page.controller after))
    = Some (logEntry timestamp "🚀 System initialized successfully").
Proof.
  intros after old added.
  assert (Hdevices : ∃ d1 d2 d3 d4,
    devices (Page.controller after) = old ++ [d1; d2; d3; d4] ∧
    SmartDevice.name <$> [d1; d2; d3; d4]
      = ["Living Room Light"; "Bedroom Fan"; "Main AC"; "Main Thermostat"] ∧
    SmartDevice.type <$> [d1; d2; d3; d4]
      = ["light"; "fan"; "ac"; "thermostat"] ∧
    SmartDevice.connectivity <$> [d1; d2; d3; d4]
      = ["online"; "online"; "online"; "offline"] ∧
    SmartDevice.powerState <$> [d1; d2; d3; d4]
      = [false; false; false; false] ∧
    SmartDevice.id <$> [d1; d2; d3; d4]
      = (λ r, Number.add (Page.now r) (Page.random r)) <$> [r1; r2; r3; r4]).
  { eexists _, _, _, _. split.
    - subst after old. unfold Page.domContentLoaded.
      cbn [Page.controller logActivity devices addDevice fst].
      by rewrite <- !app_assoc.
    - done. }
  destruct Hdevices as (d1 & d2 & d3 & d4 & Hall & Hn & Ht & Hc & Hp & Hi).
  subst added. rewrite Hall, take_app_length, drop_app_length.
  split_and!; try done.
  - rewrite <- Hall. reflexivity.
  - unfold Page.domContentLoaded.
    cbn [Page.controller logActivity activityLog]. apply logNodes_head.
Qed.

End page.

(** ** Further scenarios *)

(** A light whose connectivity reads "standby" turns on. *)
Lemma togglePower_accepts_unless_offline_witness :
  SmartDevice.connectivity
    (SmartDevice.setConnectivity "standby" Scenario.light) ≠ "offline" ∧
  message
    (snd (SmartDevice.togglePower
            (SmartDevice.setConnectivity "standby" Scenario.light)))
    = "Device turned ON".
Proof.
  assert (Hon : SmartDevice.connectivity
                  (SmartDevice.setConnectivity "standby" Scenario.light)
                ≠ "offline") by discriminate.
  split; [exact Hon|].
  destruct (togglePower_accepts_unless_offline _ Hon)
    as (_ & _ & Hmessage & _).
  exact Hmessage.
Defined.

(** [updateAdjustable(NaN)] on the light reports "Brightness set to NaN". *)
Lemma updateAdjustable_NaN_is_stored_witness :
  SmartDevice.connectivity Scenario.light ≠ "offline" ∧
  message (snd (@SmartDevice.updateAdjustable IntRuntime.runtime NaN
                  Scenario.light))
    = "Brightness set to NaN".
Proof.
  assert (Hon : SmartDevice.connectivity Scenario.light ≠ "offline")
    by discriminate.
  split; [exact Hon|].
  destruct (@updateAdjustable_NaN_is_stored IntRuntime.runtime _ Hon)
    as (_ & _ & Hmessage).
  exact Hmessage.
Defined.

(** The light, taken offline, ignores a toggle and a request for 70. *)
Lemma offline_freezes_device_witness :
  keepsConnectivity [TogglePower; UpdateAdjustable (ofZ 70); GetStatus]
    = true ∧
  SmartDevice.setConnectivity "online"
    (@performAll IntRuntime.runtime
       [TogglePower; UpdateAdjustable (ofZ 70); GetStatus]
       (SmartDevice.setConnectivity "offline" Scenario.light))
    = Scenario.light.
Proof.
  split; [reflexivity|].
  destruct (@offline_freezes_device IntRuntime.runtime Scenario.light
              [TogglePower; UpdateAdjustable (ofZ 70); GetStatus] eq_refl)
    as [_ Hback].
  exact Hback.
Defined.

(** The light is found by its id right after it was added. *)
Lemma getDevice_after_addDevice_witness :
  DeviceController.hasId
    (@DeviceController.parseId IntRuntime.runtime
       (DeviceController.IdNumber (SmartDevice.id Scenario.light)))
    Scenario.light ∧
  @DeviceController.getDevice IntRuntime.runtime
    (DeviceController.IdNumber (SmartDevice.id Scenario.light))
    (fst Scenario.withLight)
    = Some Scenario.light.
Proof.
  split; [reflexivity|].
  exact (@getDevice_after_addDevice IntRuntime.runtime sampleNow sampleRandom
           "10:00:00" "Living Room Light" "light" "online"
           (DeviceController.IdNumber (SmartDevice.id Scenario.light))
           Scenario.emptyPage eq_refl).
Defined.

(** Removing by the id that the light and the fan share returns [true]. *)
Lemma removeDevice_takes_first_match_witness :
  Scenario.light ∈ DeviceController.devices (fst Scenario.withFan) ∧
  snd Scenario.afterRemoval = true.
Proof.
  assert (Hin : Scenario.light
                  ∈ DeviceController.devices (fst Scenario.withFan))
    by (left; reflexivity).
  split; [exact Hin|].
  destruct (@removeDevice_takes_first_match IntRuntime.runtime "10:00:01"
              (DeviceController.IdNumber (SmartDevice.id Scenario.light))
              (fst Scenario.withFan) Scenario.light Hin eq_refl)
    as (before & removed & after & _ & _ & _ & Htrue & _).
  exact Htrue.
Defined.

(** No device has the id 7. *)
Lemma removeDevice_unknown_id_witness :
  Forall (λ d, ¬ DeviceController.hasId (ofZ 7) d)
    (DeviceController.devices (fst Scenario.withFan)) ∧
  @DeviceController.removeDevice IntRuntime.runtime "10:00:01"
    (DeviceController.IdNumber (ofZ 7)) (fst Scenario.withFan)
    = (fst Scenario.withFan, false).
Proof.
  assert (Hnone : Forall (λ d, ¬ DeviceController.hasId (ofZ 7) d)
                    (DeviceController.devices (fst Scenario.withFan)))
    by (apply (bool_decide_unpack _); vm_compute; exact I).
  split; [exact Hnone|].
  destruct (@removeDevice_unknown_id IntRuntime.runtime "10:00:01"
              (DeviceController.IdNumber (ofZ 7)) (fst Scenario.withFan)
              Hnone) as [Hremove _].
  exact Hremove.
Defined.

(** The text "not a number" finds nothing. *)
Lemma NaN_id_is_never_found_witness :
  @DeviceController.parseId IntRuntime.runtime Visit.unknownId = NaN ∧
  @DeviceController.getDevice IntRuntime.runtime Visit.unknownId
    (fst Scenario.withFan) = None.
Proof.
  split; [reflexivity|].
  destruct (@NaN_id_is_never_found IntRuntime.runtime "10:00:01"
              Visit.unknownId (fst Scenario.withFan) eq_refl) as [Hnone _].
  exact Hnone.
Defined.

(** Removing the lamp does not change what the heater's id finds. *)
Lemma removeDevice_keeps_other_lookups_witness :
  @DeviceController.parseId IntRuntime.runtime Visit.lampId
    ≠ @DeviceController.parseId IntRuntime.runtime Visit.heaterId ∧
  @DeviceController.getDevice IntRuntime.runtime Visit.heaterId
    (fst (@DeviceController.removeDevice IntRuntime.runtime "10:00:02"
            Visit.lampId (Page.controller Visit.withHeater)))
    = @DeviceController.getDevice IntRuntime.runtime Visit.heaterId
        (Page.controller Visit.withHeater).
Proof.
  assert (Hne : @DeviceController.parseId IntRuntime.runtime Visit.lampId
                ≠ @DeviceController.parseId IntRuntime.runtime Visit.heaterId)
    by (vm_compute; discriminate).
  split; [exact Hne|].
  exact (@removeDevice_keeps_other_lookups IntRuntime.runtime "10:00:02"
           Visit.lampId Visit.heaterId (Page.controller Visit.withHeater) Hne).
Defined.

(** With the lamp and the heater, whose ids differ, the lamp once removed
    is not found again. *)
Lemma removal_is_final_when_ids_are_distinct_witness :
  NoDup (SmartDevice.id
           <$> DeviceController.devices (Page.controller Visit.withHeater)) ∧
  @DeviceController.getDevice IntRuntime.runtime Visit.lampId
    (fst (@DeviceController.removeDevice IntRuntime.runtime "10:00:02"
            Visit.lampId (Page.controller Visit.withHeater)))
    = None.
Proof.
  assert (Hnodup : NoDup (SmartDevice.id
                            <$> DeviceController.devices
                                  (Page.controller Visit.withHeater)))
    by (apply (bool_decide_unpack _); vm_compute; exact I).
  split; [exact Hnodup|].
  assert (Hin : Visit.lamp
                  ∈ DeviceController.devices (Page.controller Visit.withHeater))
    by (left; reflexivity).
  destruct (@removal_is_final_when_ids_are_distinct IntRuntime.runtime
              "10:00:02" "10:00:03" Visit.lampId
              (Page.controller Visit.withHeater) Visit.lamp Hnodup Hin eq_refl)
    as [Hnone _].
  exact Hnone.
Defined.

(** The light added to the empty page and removed leaves no device. *)
Lemma addDevice_then_removeDevice_witness :
  Forall (λ d, ¬ DeviceController.hasId (SmartDevice.id Scenario.light) d)
    (DeviceController.devices Scenario.emptyPage) ∧
  DeviceController.devices (fst Scenario.lightRemoved) = [].
Proof.
  assert (Hfresh : Forall
            (λ d, ¬ DeviceController.hasId (SmartDevice.id Scenario.light) d)
            (DeviceController.devices Scenario.emptyPage))
    by constructor.
  split; [exact Hfresh|].
  destruct (@addDevice_then_removeDevice IntRuntime.runtime sampleNow
              sampleRandom "10:00:00" "10:00:00" "Living Room Light" "light"
              "online"
              (DeviceController.IdNumber (SmartDevice.id Scenario.light))
              Scenario.emptyPage eq_refl Hfresh) as [_ Hdevices].
  exact Hdevices.
Defined.

(** Sixty calls on the empty page leave the entries of the last fifty. *)
Lemma log_after_calls_witness :
  Scenario.sixtyCalls ≠ [] ∧
  Dom.children
    (DeviceController.activityLog
       (DeviceController.logAll Scenario.sixtyCalls Scenario.emptyPage))
  = take 50
      (reverse ((λ call, DeviceController.logEntry call.1 call.2)
                  <$> Scenario.sixtyCalls)).
Proof.
  assert (Hcalls : Scenario.sixtyCalls ≠ []) by discriminate.
  split; [exact Hcalls|].
  destruct (log_after_calls Scenario.sixtyCalls Scenario.emptyPage Hcalls)
    as (_ & Hlast & _).
  apply Hlast. apply Nat.leb_le. reflexivity.
Defined.

(** The handlers, asked for "not a number", leave the visit alone. *)
Lemma handlers_leave_unknown_id_alone_witness :
  Forall
    (λ d, ¬ DeviceController.hasId
              (@DeviceController.parseId IntRuntime.runtime Visit.unknownId) d)
    (DeviceController.devices (Page.controller Visit.withHeater)) ∧
  @Page.deleteDevice IntRuntime.runtime "10:00:02" true Visit.unknownId
    Visit.withHeater
  = Page.also
      [Page.ConsoleError "Device not found:" Visit.unknownId None;
       Page.Alert "Device not found!"] Visit.withHeater.
Proof.
  assert (Hnone : Forall
            (λ d, ¬ DeviceController.hasId
                      (@DeviceController.parseId IntRuntime.runtime
                         Visit.unknownId) d)
            (DeviceController.devices (Page.controller Visit.withHeater)))
    by (apply (bool_decide_unpack _); vm_compute; exact I).
  split; [exact Hnone|].
  destruct (@handlers_leave_unknown_id_alone IntRuntime.runtime
              PlainBrowser.browser "10:00:02" "70" true true Visit.unknownId
              Visit.withHeater Hnone) as (_ & _ & _ & Hdelete & _).
  exact Hdelete.
Defined.

(** The toggle button of the heater, which is offline, only alerts. *)
Lemma toggleDevice_offline_witness :
  @Page.findDevice IntRuntime.runtime Visit.heaterId
    (Page.controller Visit.withHeater) = Some (1, Visit.heater) ∧
  Page.effects
    (@Page.toggleDevice IntRuntime.runtime "10:00:02" Visit.heaterId
       Visit.withHeater)
  = Page.effects Visit.withHeater ++ [Page.Alert "Device is offline"].
Proof.
  split; [reflexivity|].
  destruct (@toggleDevice_offline IntRuntime.runtime "10:00:02"
              Visit.heaterId Visit.withHeater 1 Visit.heater eq_refl eq_refl)
    as (_ & _ & Heffects).
  exact Heffects.
Defined.

(** The toggle button of the lamp turns it on. *)
Lemma toggleDevice_online_witness :
  @Page.findDevice IntRuntime.runtime Visit.lampId
    (Page.controller Visit.withHeater) = Some (0, Visit.lamp) ∧
  SmartDevice.connectivity Visit.lamp ≠ "offline" ∧
  DeviceController.devices
    (Page.controller
       (@Page.toggleDevice IntRuntime.runtime "10:00:02" Visit.lampId
          Visit.withHeater))
  = [fst (SmartDevice.togglePower Visit.lamp); Visit.heater].
Proof.
  assert (Hon : SmartDevice.connectivity Visit.lamp ≠ "offline")
    by discriminate.
  split; [reflexivity|]. split; [exact Hon|].
  destruct (@toggleDevice_online IntRuntime.runtime "10:00:02" Visit.lampId
              Visit.withHeater 0 Visit.lamp eq_refl Hon) as (Hdevices & _).
  exact Hdevices.
Defined.

(** The slider of the lamp, made to send "150": 100 is stored and logged,
    "150" is shown. *)
Lemma updateAdjustable_shows_the_value_as_given_witness :
  @Page.findDevice IntRuntime.runtime Visit.lampId
    (Page.controller Visit.withHeater) = Some (0, Visit.lamp) ∧
  SmartDevice.connectivity Visit.lamp ≠ "offline" ∧
  ∃ after,
    @Page.updateAdjustable IntRuntime.runtime PlainBrowser.browser "10:00:02"
      true Visit.lampId "150" Visit.withHeater = Page.Returned after ∧
    Param.value <$> (SmartDevice.adjustableParam
                       <$> DeviceController.devices (Page.controller after))
      = [ofZ 100; ofZ 22] ∧
    last (Page.effects after)
      = Some (Page.SetTextContent "value-1700000000000" "150").
Proof.
  assert (Hon : SmartDevice.connectivity Visit.lamp ≠ "offline")
    by discriminate.
  split; [reflexivity|]. split; [exact Hon|].
  destruct (@updateAdjustable_shows_the_value_as_given IntRuntime.runtime
              PlainBrowser.browser "10:00:02" "150" Visit.lampId
              Visit.withHeater 0 Visit.lamp eq_refl Hon) as [Hreturned _].
  eexists. split; [exact Hreturned|]. split; reflexivity.
Defined.

(** The slider of the heater, which is offline, only alerts. *)
Lemma updateAdjustable_offline_witness :
  @Page.findDevice IntRuntime.runtime Visit.heaterId
    (Page.controller Visit.withHeater) = Some (1, Visit.heater) ∧
  ∃ after,
    @Page.updateAdjustable IntRuntime.runtime PlainBrowser.browser "10:00:02"
      true Visit.heaterId "25" Visit.withHeater = Page.Returned after ∧
    Page.effects after
      = Page.effects Visit.withHeater ++ [Page.Alert "Device is offline"].
Proof.
  split; [reflexivity|].
  destruct (@updateAdjustable_offline IntRuntime.runtime PlainBrowser.browser
              "10:00:02" "25" true Visit.heaterId Visit.withHeater 1
              Visit.heater eq_refl eq_refl)
    as (after & Hreturned & _ & _ & Heffects).
  exists after. split; [exact Hreturned|exact Heffects].
Defined.

(** A name made of spaces is refused. *)
Lemma submit_blank_name_witness :
  @trim PlainBrowser.browser "   " = "" ∧
  Page.controller
    (@Page.submit PlainBrowser.browser sampleNow sampleRandom "10:00:02"
       "   " "fan" "online" Visit.withHeater)
  = Page.controller Visit.withHeater.
Proof.
  split; [reflexivity|].
  destruct (@submit_blank_name PlainBrowser.browser sampleNow sampleRandom
              "10:00:02" "   " "fan" "online" Visit.withHeater eq_refl)
    as [Hcontroller _].
  exact Hcontroller.
Defined.

(** "  Hall Lamp " is registered as "Hall Lamp". *)
Lemma submit_adds_the_trimmed_name_witness :
  @trim PlainBrowser.browser "  Hall Lamp " ≠ "" ∧
  SmartDevice.name
    <$> DeviceController.devices (Page.controller Visit.withLamp)
  = ["Hall Lamp"].
Proof.
  assert (Hname : @trim PlainBrowser.browser "  Hall Lamp " ≠ "")
    by (vm_compute; discriminate).
  split; [exact Hname|].
  destruct (@submit_adds_the_trimmed_name PlainBrowser.browser sampleNow
              (ofZ 0) "10:00:00" "  Hall Lamp " "light" "online" Visit.start
              Hname) as (device & Hdevices & Hdevice & _).
  change (Page.submit sampleNow (ofZ 0) "10:00:00" "  Hall Lamp " "light"
            "online" Visit.start) with Visit.withLamp in Hdevices.
  rewrite Hdevices. cbn. rewrite Hdevice. reflexivity.
Defined.

(** A toggle, an adjustment and a confirmed deletion of the lamp leave
    the heater, as it was. *)
Lemma handlers_keep_identities_witness :
  withoutSubmit
    [Page.ToggleDevice "10:00:02" Visit.lampId;
     Page.UpdateAdjustable "10:00:03" true Visit.lampId "150";
     Page.DeleteDevice "10:00:04" true Visit.lampId] = true ∧
  (profileOf
     <$> DeviceController.devices
           (Page.controller
              (@Page.runAll IntRuntime.runtime PlainBrowser.browser
                 [Page.ToggleDevice "10:00:02" Visit.lampId;
                  Page.UpdateAdjustable "10:00:03" true Visit.lampId "150";
                  Page.DeleteDevice "10:00:04" true Visit.lampId]
                 Visit.withHeater)))
    `sublist_of`
    (profileOf
       <$> DeviceController.devices (Page.controller Visit.withHeater)).
Proof.
  split; [reflexivity|].
  destruct (@handlers_keep_identities IntRuntime.runtime PlainBrowser.browser
              [Page.ToggleDevice "10:00:02" Visit.lampId;
               Page.UpdateAdjustable "10:00:03" true Visit.lampId "150";
               Page.DeleteDevice "10:00:04" true Visit.lampId]
              Visit.withHeater eq_refl) as [Hsub _].
  exact Hsub.
Defined.
